(** * qbyte_miner: the organism registry and the CCCE evolution engine

    A shallow embedding of [src/qbyte_miner.py]: the data classes
    [CRSM6D], [CCCEState] and [OrganismState], the registry
    [OrganismLoader], the engine [CCCEEngine] and the part of
    [UnifiedPlatform] that drives them.

    Numbers.  The program computes on Python floats, and two readings of
    them are kept apart.

    - Exact arithmetic.  The main embedding takes a float as an exact
      rational [Q] (the literals [1e-10], [1e6] and [1e7] are written out
      in full); the one non-finite value the program creates,
      [float('inf')], is the extra constructor [PlusInf] of [XReal].  Its
      statements are about the formulas the code evaluates: which branch
      is taken, what is written and what is left alone, what is counted,
      what can raise.
    - Binary64.  Module [F64] embeds the numeric core a second time
      ([evolve_step], the metric, [symmetrize] and the normalizer) on the
      IEEE 754 binary64 numbers of [SpecFloat], every operation rounded
      as the running program rounds it.  What a yield, a lock angle or a
      coherence is exactly after an update is stated there, and where a
      law of the exact reading does not survive rounding, the input that
      shows it is given.

    Python ints are [Z].

    Effects.  A Python method that mutates [self] or its argument returns
    the new value of what it mutates.  An operation that can raise returns
    a [result]. *)

From Stdlib Require Import QArith Qabs Qpower Qfield Lqa ZArith SpecFloat.
From stdpp Require Import gmap strings list fin_maps pretty.

Open Scope Q_scope.

(** ** Results of operations that may raise *)

(** The exceptions the program can meet.  An [OSError] (a file that
    cannot be opened, read or listed) and a [ValueError] (a text that
    cannot be decoded or parsed, a sine of infinity) carry the text that
    [str(e)] gives for them. *)
Inductive exn : Type :=
| ZeroDivisionError
| OSError (msg : string)
| ValueError (msg : string).

Inductive result (A : Type) : Type :=
| Ok (a : A)
| Raise (e : exn).
Arguments Ok {A} a.
Arguments Raise {A} e.

(** Sequencing: [x ← r; k] runs [k] on the value of [r] and passes an
    exception on. *)
Declare Scope result_scope.
Notation "x ← y ; z" :=
  (match y with Ok x => z | Raise e => Raise e end)
  (only parsing) : result_scope.
Notation "' x ← y ; z" :=
  (match y with Ok x => z | Raise e => Raise e end)
  (only parsing) : result_scope.
Open Scope result_scope.

(** ** Python arithmetic on the embedded numbers *)

(** [a < b] on floats. *)
Definition Qlt_bool (a b : Q) : bool := negb (Qle_bool b a).

(** [a / b]: raises [ZeroDivisionError] on a zero divisor. *)
Definition py_div (a b : Q) : result Q :=
  if Qeq_bool b 0 then Raise ZeroDivisionError else Ok (a / b).

(** [max(a, b)]: the first argument unless the second is strictly larger. *)
Definition py_max (a b : Q) : Q := if Qlt_bool a b then b else a.

(** A float that is either finite or [float('inf')]. *)
Inductive XReal : Type :=
| Finite (q : Q)
| PlusInf.

(** [a > b] where [a] may be infinite. *)
Definition xgt_bool (a : XReal) (b : Q) : bool :=
  match a with
  | Finite q => Qlt_bool b q
  | PlusInf => true
  end.

Definition xadd (a b : XReal) : XReal :=
  match a, b with
  | Finite p, Finite q => Finite (p + q)
  | _, _ => PlusInf
  end.

(** [a / n] for a non-negative integer count [n]. *)
Definition xdiv (a : XReal) (n : Q) : result XReal :=
  match a with
  | Finite p => q ← py_div p n; Ok (Finite q)
  | PlusInf => if Qeq_bool n 0 then Raise ZeroDivisionError else Ok PlusInf
  end.

Definition XReal_equiv (a b : XReal) : Prop :=
  match a, b with
  | Finite p, Finite q => p == q
  | PlusInf, PlusInf => True
  | _, _ => False
  end.

(** [sum(...)] of floats: a left fold from the integer 0. *)
Definition py_sum (l : list Q) : Q := foldl Qplus 0 l.

Definition py_xsum (l : list XReal) : XReal := foldl xadd (Finite 0) l.

(** ** Universal physics constants *)

(** [2.176435e-8] *)
Definition LAMBDA_PHI : Q := 0.00000002176435.
Definition PHI_THRESHOLD : Q := 7.6901.
Definition THETA_LOCK : Q := 51.843.
Definition BELL_FIDELITY : Q := 0.869.
Definition COHERENCE_MIN : Q := 0.97.

(** ** What the program takes from its runtime

    [math.sin], [hashlib.sha256(..).hexdigest()], the [pathlib] queries
    [Path.stem], [Path.exists] and [Path.read_text] (which may raise),
    and the format specification [:.4f] of an f-string. *)

Class Runtime : Type := {
  math_sin : Q -> Q;
  sha256_hexdigest : string -> string;
  path_stem : string -> string;
  path_exists : string -> bool;
  path_read_text : string -> result string;
  format_4f : XReal -> string
}.

(** ** Data structures *)

Record CRSM6D : Type := mkCRSM6D {
  x : Q;
  y : Q;
  z : Q;
  t : Q;
  phi : Q;
  sigma : Q
}.

Definition CRSM6D_default : CRSM6D := mkCRSM6D 0 0 0 0 0 0.

Definition to_vector (self : CRSM6D) : list Q :=
  [x self; y self; z self; t self; phi self; sigma self].

Definition set_t (self : CRSM6D) (v : Q) : CRSM6D :=
  mkCRSM6D (x self) (y self) (z self) v (phi self) (sigma self).
Definition set_phi (self : CRSM6D) (v : Q) : CRSM6D :=
  mkCRSM6D (x self) (y self) (z self) (t self) v (sigma self).
Definition set_sigma (self : CRSM6D) (v : Q) : CRSM6D :=
  mkCRSM6D (x self) (y self) (z self) (t self) (phi self) v.

Record CCCEState : Type := mkCCCEState {
  lambda_val : Q;
  phi_val : Q;
  gamma_val : Q;
  xi_val : XReal;
  theta_val : Q
}.

Definition CCCEState_default : CCCEState :=
  mkCCCEState 0.97 7.6901 0.001 (Finite 0.0) 51.843.

Definition set_lambda_val (self : CCCEState) (v : Q) : CCCEState :=
  mkCCCEState v (phi_val self) (gamma_val self) (xi_val self) (theta_val self).
Definition set_phi_val (self : CCCEState) (v : Q) : CCCEState :=
  mkCCCEState (lambda_val self) v (gamma_val self) (xi_val self) (theta_val self).
Definition set_gamma_val (self : CCCEState) (v : Q) : CCCEState :=
  mkCCCEState (lambda_val self) (phi_val self) v (xi_val self) (theta_val self).
Definition set_xi_val (self : CCCEState) (v : XReal) : CCCEState :=
  mkCCCEState (lambda_val self) (phi_val self) (gamma_val self) v (theta_val self).
Definition set_theta_val (self : CCCEState) (v : Q) : CCCEState :=
  mkCCCEState (lambda_val self) (phi_val self) (gamma_val self) (xi_val self) v.

Record OrganismState : Type := mkOrganismState {
  organism_id : string;
  genesis_hash : string;
  generation : Z;
  crsm : CRSM6D;
  ccce : CCCEState;
  coherence : Q;
  entropy : Q;
  consciousness_phi : Q;
  qbytes : Q;
  status : string
}.

(** [OrganismState(organism_id=.., genesis_hash=.., generation=..)] with
    the dataclass defaults for every other field. *)
Definition new_OrganismState (id hash : string) (gen : Z) : OrganismState :=
  mkOrganismState id hash gen CRSM6D_default CCCEState_default
    0.97 0.03 7.6901 0.0 "INITIALIZING".

Definition set_generation (o : OrganismState) (v : Z) : OrganismState :=
  mkOrganismState (organism_id o) (genesis_hash o) v (crsm o) (ccce o)
    (coherence o) (entropy o) (consciousness_phi o) (qbytes o) (status o).
Definition set_crsm (o : OrganismState) (v : CRSM6D) : OrganismState :=
  mkOrganismState (organism_id o) (genesis_hash o) (generation o) v (ccce o)
    (coherence o) (entropy o) (consciousness_phi o) (qbytes o) (status o).
Definition set_ccce (o : OrganismState) (v : CCCEState) : OrganismState :=
  mkOrganismState (organism_id o) (genesis_hash o) (generation o) (crsm o) v
    (coherence o) (entropy o) (consciousness_phi o) (qbytes o) (status o).
Definition set_coherence (o : OrganismState) (v : Q) : OrganismState :=
  mkOrganismState (organism_id o) (genesis_hash o) (generation o) (crsm o) (ccce o)
    v (entropy o) (consciousness_phi o) (qbytes o) (status o).
Definition set_entropy (o : OrganismState) (v : Q) : OrganismState :=
  mkOrganismState (organism_id o) (genesis_hash o) (generation o) (crsm o) (ccce o)
    (coherence o) v (consciousness_phi o) (qbytes o) (status o).
Definition set_consciousness_phi (o : OrganismState) (v : Q) : OrganismState :=
  mkOrganismState (organism_id o) (genesis_hash o) (generation o) (crsm o) (ccce o)
    (coherence o) (entropy o) v (qbytes o) (status o).
Definition set_qbytes (o : OrganismState) (v : Q) : OrganismState :=
  mkOrganismState (organism_id o) (genesis_hash o) (generation o) (crsm o) (ccce o)
    (coherence o) (entropy o) (consciousness_phi o) v (status o).

(** ** CCCEState methods *)

Module State.

(** [CCCEState.compute_xi]: stores the metric in [xi_val] and returns it. *)
Definition compute_xi (self : CCCEState) : result (XReal * CCCEState) :=
  if Qlt_bool (gamma_val self) 0.0000000001 then
    Ok (PlusInf, set_xi_val self PlusInf)
  else
    v ← py_div (lambda_val self * phi_val self) (gamma_val self);
    Ok (Finite v, set_xi_val self (Finite v)).

(** [CCCEState.is_stable]: reads the stored [xi_val]. *)
Definition is_stable (self : CCCEState) : bool :=
  xgt_bool (xi_val self) 0.1 &&
  Qlt_bool (Qabs (theta_val self - THETA_LOCK)) 0.01.

End State.

(** ** Logger: the channel tag and the text of every entry, oldest first *)

Definition Logger : Type := list (string * string).

Definition log_aura (self : Logger) (msg : string) : Logger := self ++ [("AURA", msg)].
Definition log_aiden (self : Logger) (msg : string) : Logger := self ++ [("AIDEN", msg)].
Definition log_platform (self : Logger) (msg : string) : Logger := self ++ [("PLATFORM", msg)].
Definition log_ccce (self : Logger) (msg : string) : Logger := self ++ [("CCCE", msg)].

(** ** Organism loader *)

Record OrganismLoader : Type := mkOrganismLoader {
  organisms_dir : string;
  logger : Logger;
  ecosystem : gmap string OrganismState
}.

Definition set_logger (self : OrganismLoader) (v : Logger) : OrganismLoader :=
  mkOrganismLoader (organisms_dir self) v (ecosystem self).
Definition set_ecosystem (self : OrganismLoader) (v : gmap string OrganismState)
  : OrganismLoader :=
  mkOrganismLoader (organisms_dir self) (logger self) v.

(** [str(e)] as it appears in the failure notice: the text the exception
    was raised with. *)
Definition exn_message (e : exn) : string :=
  match e with
  | ZeroDivisionError => "float division by zero"
  | OSError msg => msg
  | ValueError msg => msg
  end.

(** The values of the registry, [self.ecosystem.values()]. *)
Definition organisms (eco : gmap string OrganismState) : list OrganismState :=
  (map_to_list eco).*2.

(** [for v in m.values(): <mutate v in place>] with a body that may raise. *)
Definition for_each_value {V : Type} (body : V -> result V) (m : gmap string V)
  : result (gmap string V) :=
  map_fold (fun k v acc => m' ← acc; v' ← body v; Ok (<[k:=v']> m')) (Ok m) m.

Module Loader.

Definition generate_genesis_hash `{Runtime} (content : string) : string :=
  String.substring 0 16 (sha256_hexdigest content).

Definition check_lambda_symmetry (organism : OrganismState) : bool :=
  Qle_bool COHERENCE_MIN (coherence organism).

(** [symmetrize], the formula read exactly; [F64.symmetrize] is the same
    method with its sum rounded. *)
Definition symmetrize (organism : OrganismState) : result OrganismState :=
  let organism := set_coherence organism ((coherence organism + COHERENCE_MIN) / 2) in
  let organism := set_ccce organism (set_lambda_val (ccce organism) (coherence organism)) in
  '(_, c) ← State.compute_xi (ccce organism);
  Ok (set_ccce organism c).

(** The body of the [try] block of [load_organism]; the logger keeps what
    was written before an exception. *)
Definition load_organism_try `{Runtime} (self : OrganismLoader) (filepath : string)
  : result OrganismState * OrganismLoader :=
  match path_read_text filepath with
  | Raise e => (Raise e, self)
  | Ok content =>
    let genesis_hash := generate_genesis_hash content in
    let organism := new_OrganismState (path_stem filepath) genesis_hash 0 in
    let '(r, self) :=
      if negb (check_lambda_symmetry organism) then
        let self := set_logger self
          (log_aura (logger self) "Organism not Λ-symmetric, applying symmetrization") in
        (symmetrize organism, self)
      else (Ok organism, self) in
    match r with
    | Raise e => (Raise e, self)
    | Ok organism =>
      let self := set_ecosystem self (<[genesis_hash := organism]> (ecosystem self)) in
      let self := set_logger self
        (log_platform (logger self)
           ("Loaded organism: " +:+ organism_id organism +:+ " [" +:+
            String.substring 0 8 genesis_hash +:+ "...]")) in
      (Ok organism, self)
    end
  end.

(** [load_organism]: [None] is Python's [None]. *)
Definition load_organism `{Runtime} (self : OrganismLoader) (filepath : string)
  : option OrganismState * OrganismLoader :=
  if negb (path_exists filepath) then
    (None, set_logger self
       (log_aiden (logger self) ("Organism file not found: " +:+ filepath)))
  else
    match load_organism_try self filepath with
    | (Ok organism, self) => (Some organism, self)
    | (Raise e, self) =>
      (None, set_logger self
         (log_aiden (logger self) ("Failed to load organism: " +:+ exn_message e)))
    end.

Definition compute_ecosystem_lambda (self : OrganismLoader) : result Q :=
  if Nat.eqb (size (ecosystem self)) 0 then Ok 0.0
  else py_div (py_sum (coherence <$> organisms (ecosystem self)))
              (inject_Z (Z.of_nat (size (ecosystem self)))).

(** The body of the loop of [enforce_ecosystem_symmetry], the formula
    read exactly; [F64.enforce_ecosystem_symmetry_body] is the same body
    with every operation rounded. *)
Definition enforce_ecosystem_symmetry_body (lambda_total : Q) (organism : OrganismState)
  : result OrganismState :=
  let delta := coherence organism - lambda_total in
  let organism := set_coherence organism (coherence organism - 0.1 * delta) in
  let organism := set_ccce organism (set_lambda_val (ccce organism) (coherence organism)) in
  '(_, c) ← State.compute_xi (ccce organism);
  Ok (set_ccce organism c).

Definition enforce_ecosystem_symmetry (self : OrganismLoader) : result OrganismLoader :=
  lambda_total ← compute_ecosystem_lambda self;
  eco ← for_each_value (enforce_ecosystem_symmetry_body lambda_total) (ecosystem self);
  Ok (set_ecosystem self eco).

End Loader.

(** ** CCCE engine *)

Record CCCEEngine : Type := mkCCCEEngine {
  state : CCCEState;
  corrections : Z
}.

Definition CCCEEngine_init : CCCEEngine := mkCCCEEngine CCCEState_default 0.

Definition set_state (self : CCCEEngine) (v : CCCEState) : CCCEEngine :=
  mkCCCEEngine v (corrections self).
Definition set_corrections (self : CCCEEngine) (v : Z) : CCCEEngine :=
  mkCCCEEngine (state self) v.

Module Engine.

(** [CCCEEngine.compute_xi]: the engine is returned next to the value, as
    for every method, so that what the call does to it can be stated. *)
Definition compute_xi (self : CCCEEngine) (lambda_val phi_val gamma_val : Q)
  : result (XReal * CCCEEngine) :=
  if Qlt_bool gamma_val 0.0000000001 then Ok (PlusInf, self)
  else
    v ← py_div (lambda_val * phi_val) gamma_val;
    Ok (Finite v, self).

Definition phase_conjugate_correction (self : CCCEEngine) (error : Q)
  : result (Q * CCCEEngine) :=
  if Qlt_bool (Qabs error) 0.0000000001 then Ok (0.0, self)
  else
    corrected ← (if negb (Qeq_bool error 0) then
                   d ← py_div 1.0 error; Ok (error - d)
                 else Ok 0.0);
    let self := set_corrections self (corrections self + 1)%Z in
    Ok (corrected, self).

Definition centripetal_force (xi : Q) : result Q :=
  xi_target ← py_div (COHERENCE_MIN * PHI_THRESHOLD) 0.001;
  Ok (- (xi - xi_target) * 0.01).

Definition check_convergence (self : CCCEEngine) : result (bool * CCCEEngine) :=
  '(_, st) ← State.compute_xi (state self);
  let self := set_state self st in
  let theta_error := Qabs (theta_val (state self) - THETA_LOCK) in
  Ok (xgt_bool (xi_val (state self)) 0.1 && Qlt_bool theta_error 0.01, self).

(** [evolve_step], the formulas read exactly; [F64.evolve_step] is the
    same method with every operation rounded. *)
Definition evolve_step `{Runtime} (self : CCCEEngine) (organism : OrganismState) (dt : Q)
  : result (OrganismState * CCCEEngine) :=
  (* O_Fractal *)
  let phi_new := LAMBDA_PHI * consciousness_phi organism - entropy organism * 0.01 in
  let organism := set_consciousness_phi organism (py_max 0 phi_new) in
  (* O_CRSM *)
  let organism := set_crsm organism (set_t (crsm organism) (t (crsm organism) + dt)) in
  let organism := set_crsm organism
    (set_phi (crsm organism)
       (math_sin (t (crsm organism) * LAMBDA_PHI * 1000000) * PHI_THRESHOLD)) in
  let organism := set_crsm organism
    (set_sigma (crsm organism) (sigma (crsm organism) + entropy organism * 0.001)) in
  (* O_QPU *)
  let theta_error := theta_val (ccce organism) - THETA_LOCK in
  let organism := set_ccce organism
    (set_theta_val (ccce organism) (theta_val (ccce organism) - theta_error * 0.1)) in
  (* O_H *)
  let organism := set_generation organism (generation organism + 1)%Z in
  (* Phase conjugate correction *)
  '(organism, self) ←
    (if Qlt_bool 0.1 (entropy organism) then
       '(corrected, self) ← phase_conjugate_correction self (entropy organism);
       Ok (set_entropy organism (Qabs corrected), self)
     else Ok (organism, self));
  (* Update CCCE state *)
  let organism := set_ccce organism (set_lambda_val (ccce organism) (coherence organism)) in
  let organism := set_ccce organism (set_phi_val (ccce organism) (consciousness_phi organism)) in
  let organism := set_ccce organism (set_gamma_val (ccce organism) (entropy organism)) in
  '(_, c) ← State.compute_xi (ccce organism);
  let organism := set_ccce organism c in
  (* Mine qBytes if coherence is high *)
  let organism :=
    if Qlt_bool 0.9 (coherence organism) then
      set_qbytes organism (qbytes organism + coherence organism * LAMBDA_PHI * 10000000)
    else organism in
  Ok (organism, self).

End Engine.

(** ** Unified platform: the evolution loop and what the report reads *)

Record UnifiedPlatform : Type := mkUnifiedPlatform {
  loader : OrganismLoader;
  engine : CCCEEngine;
  organisms_loaded : Z;
  ccce_xi : XReal;
  mode : string
}.

(** One entry of [report["organisms"]], numeric fields only. *)
Record OrganismReport : Type := mkOrganismReport {
  report_genesis_hash : string;
  report_generation : Z;
  report_coherence : Q;
  report_consciousness_phi : Q;
  report_entropy : Q;
  report_qbytes : Q;
  report_ccce_xi : XReal;
  report_theta : Q;
  report_crsm_6d : list Q
}.

Module Platform.

Definition init (dir : string) : UnifiedPlatform :=
  mkUnifiedPlatform (mkOrganismLoader dir [] ∅) CCCEEngine_init 0 (Finite 0.0)
    "INITIALIZING".

(** The inner loop of [evolve_ecosystem]: every organism is stepped with
    the default [dt] and stored back under its key. *)
Definition evolve_all `{Runtime} (eng : CCCEEngine) (eco : gmap string OrganismState)
  : result (gmap string OrganismState * CCCEEngine) :=
  map_fold (fun genesis_hash organism acc =>
              '(eco', eng) ← acc;
              '(organism, eng) ← Engine.evolve_step eng organism 0.1;
              Ok (<[genesis_hash := organism]> eco', eng))
           (Ok (eco, eng)) eco.

(** One iteration of the outer loop; returns the loader, the engine and
    the average stored in [platform_state["ccce_xi"]]. *)
Definition evolve_iteration `{Runtime} (ld : OrganismLoader) (eng : CCCEEngine)
  : result (OrganismLoader * CCCEEngine * XReal) :=
  '(eco, eng) ← evolve_all eng (ecosystem ld);
  let ld := set_ecosystem ld eco in
  ld ← Loader.enforce_ecosystem_symmetry ld;
  avg_xi ← xdiv (py_xsum ((fun o => xi_val (ccce o)) <$> organisms (ecosystem ld)))
                (inject_Z (Z.max 1 (Z.of_nat (size (ecosystem ld)))));
  Ok (ld, eng, avg_xi).

Fixpoint evolve_iterations `{Runtime} (n : nat) (self : UnifiedPlatform)
  : result UnifiedPlatform :=
  match n with
  | O => Ok self
  | S n =>
    '(ld, eng, avg_xi) ← evolve_iteration (loader self) (engine self);
    evolve_iterations n
      (mkUnifiedPlatform ld eng (organisms_loaded self) avg_xi (mode self))
  end.

(** [self.logger] of the platform is the object the loader holds as its
    [logger]; a notice of the platform is appended there. *)
Definition log_notice (self : UnifiedPlatform) (msg : string) : UnifiedPlatform :=
  mkUnifiedPlatform
    (set_logger (loader self) (log_ccce (logger (loader self)) msg))
    (engine self) (organisms_loaded self) (ccce_xi self) (mode self).

(** [evolve_ecosystem]: [range(iterations)] is empty for a count that is
    zero or negative. *)
Definition evolve_ecosystem `{Runtime} (self : UnifiedPlatform) (iterations : Z)
  : result UnifiedPlatform :=
  let self := log_notice self
    ("Evolving ecosystem for " +:+ pretty iterations +:+ " iterations...") in
  self ← evolve_iterations (Z.to_nat iterations) self;
  let self := mkUnifiedPlatform (loader self) (engine self) (organisms_loaded self)
                (ccce_xi self) "EVOLVED" in
  Ok (log_notice self ("Evolution complete. CCCE Ξ: " +:+ format_4f (ccce_xi self))).

Definition report_organism (genesis_hash : string) (organism : OrganismState)
  : OrganismReport :=
  mkOrganismReport genesis_hash (generation organism) (coherence organism)
    (consciousness_phi organism) (entropy organism) (qbytes organism)
    (xi_val (ccce organism)) (theta_val (ccce organism)) (to_vector (crsm organism)).

Definition report_organisms (self : UnifiedPlatform) : list OrganismReport :=
  (fun kv => report_organism kv.1 kv.2) <$> map_to_list (ecosystem (loader self)).

End Platform.

(** ** Derived notions used in the statements *)

(** The value of the metric for given coherence, consciousness and
    decoherence, as a total function. *)
Definition xi_of (l p g : Q) : XReal :=
  if Qlt_bool g 0.0000000001 then PlusInf else Finite (l * p / g).

(** [n] successive calls of [evolve_step] on the same organism. *)
Fixpoint evolve_steps `{Runtime} (n : nat) (self : CCCEEngine) (organism : OrganismState)
    (dt : Q) : result (OrganismState * CCCEEngine) :=
  match n with
  | O => Ok (organism, self)
  | S n =>
    '(organism, self) ← Engine.evolve_step self organism dt;
    evolve_steps n self organism dt
  end.

(** [n] successive calls of [enforce_ecosystem_symmetry]. *)
Fixpoint enforce_times (n : nat) (self : OrganismLoader) : result OrganismLoader :=
  match n with
  | O => Ok self
  | S n => self ← Loader.enforce_ecosystem_symmetry self; enforce_times n self
  end.

(** What [evolve_step] leaves in every field it can touch. *)
Record step_post `{Runtime} (self : CCCEEngine) (o : OrganismState) (dt : Q)
    (o' : OrganismState) (self' : CCCEEngine) : Prop := {
  post_id : organism_id o' = organism_id o;
  post_hash : genesis_hash o' = genesis_hash o;
  post_status : status o' = status o;
  post_generation : generation o' = (generation o + 1)%Z;
  post_coherence : coherence o' = coherence o;
  post_phi : consciousness_phi o' =
             py_max 0 (LAMBDA_PHI * consciousness_phi o - entropy o * 0.01);
  post_entropy : entropy o' =
                 if Qlt_bool 0.1 (entropy o)
                 then Qabs (entropy o - 1.0 / entropy o) else entropy o;
  post_corrections : corrections self' =
                     if Qlt_bool 0.1 (entropy o)
                     then (corrections self + 1)%Z else corrections self;
  post_state : state self' = state self;
  post_theta : theta_val (ccce o') =
               theta_val (ccce o) - (theta_val (ccce o) - THETA_LOCK) * 0.1;
  post_lambda : lambda_val (ccce o') = coherence o';
  post_phi_val : phi_val (ccce o') = consciousness_phi o';
  post_gamma : gamma_val (ccce o') = entropy o';
  post_xi : xi_val (ccce o') =
            xi_of (coherence o') (consciousness_phi o') (entropy o');
  post_qbytes : qbytes o' =
                if Qlt_bool 0.9 (coherence o)
                then qbytes o + coherence o * LAMBDA_PHI * 10000000
                else qbytes o;
  post_t : t (crsm o') = t (crsm o) + dt;
  post_crsm_phi : phi (crsm o') =
                  math_sin ((t (crsm o) + dt) * LAMBDA_PHI * 1000000) * PHI_THRESHOLD;
  post_sigma : sigma (crsm o') = sigma (crsm o) + entropy o * 0.001;
  post_xyz : x (crsm o') = x (crsm o) /\ y (crsm o') = y (crsm o) /\
             z (crsm o') = z (crsm o)
}.

(** What the loop body of [enforce_ecosystem_symmetry] leaves in an
    organism, for a population mean [lambda_total]. *)
Definition enforce_result (lambda_total : Q) (o : OrganismState) : OrganismState :=
  let c := coherence o - 0.1 * (coherence o - lambda_total) in
  set_ccce (set_coherence o c)
    (mkCCCEState c (phi_val (ccce o)) (gamma_val (ccce o))
       (xi_of c (phi_val (ccce o)) (gamma_val (ccce o))) (theta_val (ccce o))).

(** A runtime for the worked examples: one readable file, [genesis.dna].
    Its [math_sin] and its [format_4f] are stand-ins that give one answer
    everywhere; the examples never look at the phase coordinate that the
    sine feeds, nor at the digits of a logged metric. *)
Definition example_runtime : Runtime := {|
  math_sin := fun _ => 0;
  sha256_hexdigest := fun content => "00112233445566778899aabbccddeeff" +:+ content;
  path_stem := fun p => String.substring 0 (String.length p - 4) p;
  path_exists := fun p => String.eqb p "genesis.dna";
  path_read_text := fun p =>
    if String.eqb p "genesis.dna" then Ok "ORGANISM genesis"
    else Raise (OSError ("[Errno 2] No such file or directory: '" +:+ p +:+ "'"));
  format_4f := fun _ => "0.0000"
|}.

Definition example_loader : OrganismLoader := mkOrganismLoader "organisms" [] ∅.

(** The platform that has admitted [genesis.dna]. *)
Definition example_platform : UnifiedPlatform :=
  let ld := (@Loader.load_organism example_runtime example_loader "genesis.dna").2 in
  mkUnifiedPlatform ld CCCEEngine_init 1 (Finite 0.0) "INITIALIZING".

(** A just-created organism; the examples override one field at a time. *)
Definition example_organism : OrganismState := new_OrganismState "genesis" "0011223344556677" 0.

(** A registry of two organisms with coherences 0.5 and 1.0. *)
Definition example_pair : OrganismLoader :=
  mkOrganismLoader "organisms" []
    {[ "aa" := set_coherence example_organism 0.5;
       "bb" := set_coherence example_organism 1.0 ]}.

(** ** Loading a directory of organisms *)

(** [UnifiedPlatform.load_organisms].  [files] is what
    [ORGANISMS_DIR.glob("*.dna")] yields, in that order; the platform's
    logger is the loader's (one object in the program). *)
Definition load_organisms `{Runtime} (self : UnifiedPlatform) (files : list string)
  : UnifiedPlatform :=
  let ld := set_logger (loader self)
              (log_platform (logger (loader self)) "Loading organisms...") in
  let '(ld, n) :=
    foldl (fun '(ld, n) dna_file =>
             let '(organism, ld) := Loader.load_organism ld dna_file in
             match organism with
             | Some _ => (ld, (n + 1)%Z)
             | None => (ld, n)
             end)
          (ld, organisms_loaded self) files in
  let ld := set_logger ld
              (log_platform (logger ld) ("Loaded " +:+ pretty n +:+ " organisms")) in
  mkUnifiedPlatform ld (engine self) n (ccce_xi self) (mode self).

(** ** Quantum corpus analyzer *)

Module Corpus.

Record QuantumJobResult : Type := mkQuantumJobResult {
  job_id : string;
  backend : string;
  status : string;
  created : string;
  cost : Z;
  shots : Z;
  success : bool;
  fidelity : Q
}.

Definition set_success (j : QuantumJobResult) (v : bool) : QuantumJobResult :=
  mkQuantumJobResult (job_id j) (backend j) (status j) (created j) (cost j)
    (shots j) v (fidelity j).

(** The object parsed from a [*-info.json] file: each key is present or
    not, and a present key carries a value of the type that
    [QuantumJobResult] declares for it. *)
Record JobInfo : Type := mkJobInfo {
  info_id : option string;
  info_backend : option string;
  info_status : option string;
  info_created : option string;
  info_cost : option Z
}.

(** A [*-info.json] file: what [open] and [json.load] give (or the
    exception they raise), and whether the matching [*-result.json]
    exists. *)
Record InfoFile : Type := mkInfoFile {
  load : result JobInfo;
  result_exists : bool
}.

(** An entry of the workloads directory: a directory with its
    [*-info.json] files in [glob] order, or something that is not a
    directory. *)
Inductive DirEntry : Type :=
| NotADir
| WorkloadDir (info_files : list InfoFile).

(** What [workloads_dir] points at: nothing, something that [iterdir]
    refuses with an exception (a plain file, a directory that may not be
    read), or a directory with its entries. *)
Inductive Workloads : Type :=
| Missing
| Unlistable (e : exn)
| Directory (entries : list DirEntry).

Record QuantumCorpusAnalyzer : Type := mkQuantumCorpusAnalyzer {
  workloads_dir : Workloads;
  jobs : list QuantumJobResult
}.

(** The [stats] dictionary; [jobs_sample] is [stats["jobs"]]. *)
Record Stats : Type := mkStats {
  total_jobs : Z;
  completed_jobs : Z;
  total_cost : Z;
  backends : gmap string Z;
  success_rate : Q;
  jobs_sample : list QuantumJobResult
}.

Definition empty_stats : Stats := mkStats 0 0 0 ∅ 0.0 [].

(** [QuantumJobResult(job_id=info.get("id", "unknown"), ...)]. *)
Definition job_of_info (info : JobInfo) : QuantumJobResult :=
  mkQuantumJobResult
    (default "unknown" (info_id info))
    (default "unknown" (info_backend info))
    (default "unknown" (info_status info))
    (default "" (info_created info))
    (default 0%Z (info_cost info))
    0 false 0.0.

(** The body of the inner loop, [try] and [except Exception: pass]
    included; the accumulator is [stats] and [self.jobs]. *)
Definition scan_info_file (acc : Stats * list QuantumJobResult) (f : InfoFile)
  : Stats * list QuantumJobResult :=
  let '(stats, jobs) := acc in
  match load f with
  | Raise _ => (stats, jobs)
  | Ok info =>
    let job := job_of_info info in
    let '(job, stats) :=
      if result_exists f then
        (set_success job true,
         mkStats (total_jobs stats) (completed_jobs stats + 1) (total_cost stats)
           (backends stats) (success_rate stats) (jobs_sample stats))
      else (job, stats) in
    let jobs := jobs ++ [job] in
    let stats := mkStats (total_jobs stats + 1) (completed_jobs stats)
                   (total_cost stats) (backends stats) (success_rate stats)
                   (jobs_sample stats) in
    let stats := mkStats (total_jobs stats) (completed_jobs stats)
                   (total_cost stats + cost job) (backends stats)
                   (success_rate stats) (jobs_sample stats) in
    let backend := backend job in
    let bs := match backends stats !! backend with
              | None => <[backend := 0%Z]> (backends stats)
              | Some _ => backends stats
              end in
    let bs := <[backend := (default 0%Z (bs !! backend) + 1)%Z]> bs in
    (mkStats (total_jobs stats) (completed_jobs stats) (total_cost stats) bs
       (success_rate stats) (jobs_sample stats), jobs)
  end.

Definition scan_entry (acc : Stats * list QuantumJobResult) (entry : DirEntry)
  : Stats * list QuantumJobResult :=
  match entry with
  | NotADir => acc
  | WorkloadDir info_files => foldl scan_info_file acc info_files
  end.

(** [scan_workloads]: the statistics and the analyzer with its grown
    [jobs].  An exception of [iterdir] is not caught. *)
Definition scan_workloads (self : QuantumCorpusAnalyzer)
  : result (Stats * QuantumCorpusAnalyzer) :=
  match workloads_dir self with
  | Missing => Ok (empty_stats, self)
  | Unlistable e => Raise e
  | Directory entries =>
    let '(stats, jobs) := foldl scan_entry (empty_stats, jobs self) entries in
    stats ← (if (0 <? total_jobs stats)%Z then
               r ← py_div (inject_Z (completed_jobs stats)) (inject_Z (total_jobs stats));
               Ok (mkStats (total_jobs stats) (completed_jobs stats) (total_cost stats)
                     (backends stats) r (jobs_sample stats))
             else Ok stats);
    Ok (mkStats (total_jobs stats) (completed_jobs stats) (total_cost stats)
          (backends stats) (success_rate stats) (take 50 jobs),
        mkQuantumCorpusAnalyzer (workloads_dir self) jobs)
  end.

(** The jobs a scan of [entries] builds, in the order it builds them. *)
Definition jobs_of_file (f : InfoFile) : list QuantumJobResult :=
  match load f with
  | Raise _ => []
  | Ok info => [set_success (job_of_info info) (result_exists f)]
  end.

Definition jobs_of_entry (entry : DirEntry) : list QuantumJobResult :=
  match entry with
  | NotADir => []
  | WorkloadDir info_files => info_files ≫= jobs_of_file
  end.

Definition jobs_of_entries (entries : list DirEntry) : list QuantumJobResult :=
  entries ≫= jobs_of_entry.

(** Counts over a list of jobs, for the statements about the counters. *)
Definition completed_count (l : list QuantumJobResult) : Z :=
  Z.of_nat (length (filter (fun j => success j = true) l)).

Definition backend_count (b : string) (l : list QuantumJobResult) : Z :=
  Z.of_nat (length (filter (fun j => backend j = b) l)).

Definition cost_sum (l : list QuantumJobResult) : Z :=
  foldr (fun j acc => (cost j + acc)%Z) 0%Z l.

(** What the accumulator of a scan holds after the jobs [l] have been
    built on top of the jobs [jobs0] that the analyzer already had. *)
Record scanned (jobs0 l : list QuantumJobResult)
    (acc : Stats * list QuantumJobResult) : Prop := {
  sc_jobs : acc.2 = jobs0 ++ l;
  sc_total : total_jobs acc.1 = Z.of_nat (length l);
  sc_completed : completed_jobs acc.1 = completed_count l;
  sc_cost : total_cost acc.1 = cost_sum l;
  sc_backends : forall b, backends acc.1 !! b =
                  if decide (backend_count b l = 0%Z) then None
                  else Some (backend_count b l);
  sc_rate : success_rate acc.1 = 0.0;
  sc_sample : jobs_sample acc.1 = []
}.

End Corpus.

(** Whether [load_organism] admits a path: it exists and can be read. *)
Definition admitted `{Runtime} (p : string) : bool :=
  path_exists p && match path_read_text p with Ok _ => true | Raise _ => false end.

(** A second runtime for the worked examples: two readable files with the
    same content and one that exists but cannot be read. *)
Definition example_runtime_twins : Runtime := {|
  math_sin := fun _ => 0;
  sha256_hexdigest := fun content => "8899aabbccddeeff0011223344556677" +:+ content;
  path_stem := fun p => String.substring 0 (String.length p - 4) p;
  path_exists := fun p =>
    String.eqb p "alpha.dna" || String.eqb p "beta.dna" || String.eqb p "locked.dna";
  path_read_text := fun p =>
    if String.eqb p "alpha.dna" || String.eqb p "beta.dna" then Ok "ORGANISM twin"
    else Raise (OSError ("[Errno 13] Permission denied: '" +:+ p +:+ "'"));
  format_4f := fun _ => "0.0000"
|}.

(** A workloads directory for the worked examples: a stray file, and one
    workload with a completed job, an info file that is not JSON and a
    pending job that names neither backend nor cost. *)
Definition example_analyzer : Corpus.QuantumCorpusAnalyzer :=
  Corpus.mkQuantumCorpusAnalyzer
    (Corpus.Directory
       [Corpus.NotADir;
        Corpus.WorkloadDir
          [Corpus.mkInfoFile
             (Ok (Corpus.mkJobInfo (Some "j1") (Some "ibm_torino") (Some "DONE")
                    (Some "2025-01-01") (Some 12%Z))) true;
           Corpus.mkInfoFile
             (Raise (ValueError "Expecting value: line 1 column 1 (char 0)")) true;
           Corpus.mkInfoFile
             (Ok (Corpus.mkJobInfo (Some "j2") None (Some "QUEUED") None None)) false]])
    [].

(** * The same operations in binary64

    The operations whose results depend on rounding, written on the
    IEEE 754 binary64 numbers of the Standard Library ([SpecFloat],
    precision 53, largest exponent 1024).  Every [+], [-], [*] and [/]
    rounds to nearest, ties to even, as a CPython float does; [inf] and
    [nan] are values.  The registry is the list of its entries in
    insertion order: that is the order in which Python iterates a dict,
    and the order in which [sum] adds. *)

Module F64.

Definition prec : Z := 53%Z.
Definition emax : Z := 1024%Z.

(** [float(n)] for an integer [n]. *)
Definition of_int (n : Z) : spec_float := binary_normalize prec emax n 0 false.

(** A decimal literal, given as the quotient of two integers that are
    doubles themselves: the double nearest to it. *)
Definition literal (num den : Z) : spec_float :=
  SFdiv prec emax (of_int num) (of_int den).

Definition add : spec_float -> spec_float -> spec_float := SFadd prec emax.
Definition sub : spec_float -> spec_float -> spec_float := SFsub prec emax.
Definition mul : spec_float -> spec_float -> spec_float := SFmul prec emax.
Definition abs : spec_float -> spec_float := SFabs.
Definition ltb : spec_float -> spec_float -> bool := SFltb.
Definition leb : spec_float -> spec_float -> bool := SFleb.
Definition eqb : spec_float -> spec_float -> bool := SFeqb.

(** [float('inf')] *)
Definition inf : spec_float := S754_infinity false.

Definition is_zero (a : spec_float) : bool :=
  match a with
  | S754_zero _ => true
  | _ => false
  end.

(** [a / b] on floats: raises on a divisor that is [0.0] or [-0.0]. *)
Definition div (a b : spec_float) : result spec_float :=
  if is_zero b then Raise ZeroDivisionError else Ok (SFdiv prec emax a b).

(** [a / n] for an integer [n]: raises when [n] is 0. *)
Definition div_int (a : spec_float) (n : Z) : result spec_float :=
  if (n =? 0)%Z then Raise ZeroDivisionError else Ok (SFdiv prec emax a (of_int n)).

(** [max(0, a)]: 0 unless [a] is strictly larger. *)
Definition max_0 (a : spec_float) : spec_float :=
  if ltb (of_int 0) a then a else of_int 0.

(** [sum(...)] of floats: a left fold from the integer 0. *)
Definition sum (l : list spec_float) : spec_float := foldl add (of_int 0) l.

(** The rational number a finite double stands for. *)
Definition value (a : spec_float) : Q :=
  match a with
  | S754_finite s m e => inject_Z (if s then Z.neg m else Z.pos m) * 2 ^ e
  | _ => 0
  end.

(** [2.176435e-8] *)
Definition LAMBDA_PHI : spec_float := literal 2176435 100000000000000.
Definition PHI_THRESHOLD : spec_float := literal 76901 10000.
Definition THETA_LOCK : spec_float := literal 51843 1000.
Definition COHERENCE_MIN : spec_float := literal 97 100.

(** [1e-10], the floor under which no division is made. *)
Definition floor : spec_float := literal 1 10000000000.

(** The sine of the C library, and [math.sin] on top of it: an infinite
    argument is refused with a [ValueError]. *)
Class Libm : Type := { libm_sin : spec_float -> spec_float }.

Definition math_sin `{Libm} (a : spec_float) : result spec_float :=
  match a with
  | S754_infinity _ => Raise (ValueError "math domain error")
  | _ => Ok (libm_sin a)
  end.

Record CRSM6D : Type := mkCRSM6D {
  x : spec_float;
  y : spec_float;
  z : spec_float;
  t : spec_float;
  phi : spec_float;
  sigma : spec_float
}.

Definition CRSM6D_default : CRSM6D :=
  mkCRSM6D (of_int 0) (of_int 0) (of_int 0) (of_int 0) (of_int 0) (of_int 0).

Definition set_t (self : CRSM6D) (v : spec_float) : CRSM6D :=
  mkCRSM6D (x self) (y self) (z self) v (phi self) (sigma self).
Definition set_phi (self : CRSM6D) (v : spec_float) : CRSM6D :=
  mkCRSM6D (x self) (y self) (z self) (t self) v (sigma self).
Definition set_sigma (self : CRSM6D) (v : spec_float) : CRSM6D :=
  mkCRSM6D (x self) (y self) (z self) (t self) (phi self) v.

Record CCCEState : Type := mkCCCEState {
  lambda_val : spec_float;
  phi_val : spec_float;
  gamma_val : spec_float;
  xi_val : spec_float;
  theta_val : spec_float
}.

Definition CCCEState_default : CCCEState :=
  mkCCCEState (literal 97 100) (literal 76901 10000) (literal 1 1000) (of_int 0)
    (literal 51843 1000).

Definition set_lambda_val (self : CCCEState) (v : spec_float) : CCCEState :=
  mkCCCEState v (phi_val self) (gamma_val self) (xi_val self) (theta_val self).
Definition set_phi_val (self : CCCEState) (v : spec_float) : CCCEState :=
  mkCCCEState (lambda_val self) v (gamma_val self) (xi_val self) (theta_val self).
Definition set_gamma_val (self : CCCEState) (v : spec_float) : CCCEState :=
  mkCCCEState (lambda_val self) (phi_val self) v (xi_val self) (theta_val self).
Definition set_xi_val (self : CCCEState) (v : spec_float) : CCCEState :=
  mkCCCEState (lambda_val self) (phi_val self) (gamma_val self) v (theta_val self).
Definition set_theta_val (self : CCCEState) (v : spec_float) : CCCEState :=
  mkCCCEState (lambda_val self) (phi_val self) (gamma_val self) (xi_val self) v.

Record OrganismState : Type := mkOrganismState {
  organism_id : string;
  genesis_hash : string;
  generation : Z;
  crsm : CRSM6D;
  ccce : CCCEState;
  coherence : spec_float;
  entropy : spec_float;
  consciousness_phi : spec_float;
  qbytes : spec_float;
  status : string
}.

Definition new_OrganismState (id hash : string) (gen : Z) : OrganismState :=
  mkOrganismState id hash gen CRSM6D_default CCCEState_default
    (literal 97 100) (literal 3 100) (literal 76901 10000) (of_int 0) "INITIALIZING".

Definition set_generation (o : OrganismState) (v : Z) : OrganismState :=
  mkOrganismState (organism_id o) (genesis_hash o) v (crsm o) (ccce o)
    (coherence o) (entropy o) (consciousness_phi o) (qbytes o) (status o).
Definition set_crsm (o : OrganismState) (v : CRSM6D) : OrganismState :=
  mkOrganismState (organism_id o) (genesis_hash o) (generation o) v (ccce o)
    (coherence o) (entropy o) (consciousness_phi o) (qbytes o) (status o).
Definition set_ccce (o : OrganismState) (v : CCCEState) : OrganismState :=
  mkOrganismState (organism_id o) (genesis_hash o) (generation o) (crsm o) v
    (coherence o) (entropy o) (consciousness_phi o) (qbytes o) (status o).
Definition set_coherence (o : OrganismState) (v : spec_float) : OrganismState :=
  mkOrganismState (organism_id o) (genesis_hash o) (generation o) (crsm o) (ccce o)
    v (entropy o) (consciousness_phi o) (qbytes o) (status o).
Definition set_entropy (o : OrganismState) (v : spec_float) : OrganismState :=
  mkOrganismState (organism_id o) (genesis_hash o) (generation o) (crsm o) (ccce o)
    (coherence o) v (consciousness_phi o) (qbytes o) (status o).
Definition set_consciousness_phi (o : OrganismState) (v : spec_float) : OrganismState :=
  mkOrganismState (organism_id o) (genesis_hash o) (generation o) (crsm o) (ccce o)
    (coherence o) (entropy o) v (qbytes o) (status o).
Definition set_qbytes (o : OrganismState) (v : spec_float) : OrganismState :=
  mkOrganismState (organism_id o) (genesis_hash o) (generation o) (crsm o) (ccce o)
    (coherence o) (entropy o) (consciousness_phi o) v (status o).

(** [CCCEState.compute_xi] *)
Definition compute_xi (self : CCCEState) : result (spec_float * CCCEState) :=
  if ltb (gamma_val self) floor then Ok (inf, set_xi_val self inf)
  else
    v ← div (mul (lambda_val self) (phi_val self)) (gamma_val self);
    Ok (v, set_xi_val self v).

(** [OrganismLoader.check_lambda_symmetry] *)
Definition check_lambda_symmetry (organism : OrganismState) : bool :=
  leb COHERENCE_MIN (coherence organism).

(** [OrganismLoader.symmetrize] *)
Definition symmetrize (organism : OrganismState) : result OrganismState :=
  c ← div_int (add (coherence organism) COHERENCE_MIN) 2;
  let organism := set_coherence organism c in
  let organism := set_ccce organism (set_lambda_val (ccce organism) (coherence organism)) in
  '(_, c) ← compute_xi (ccce organism);
  Ok (set_ccce organism c).

(** [OrganismLoader.compute_ecosystem_lambda] on the entries of the
    registry. *)
Definition compute_ecosystem_lambda (ecosystem : list (string * OrganismState))
  : result spec_float :=
  match ecosystem with
  | [] => Ok (of_int 0)
  | _ => div_int (sum ((fun kv => coherence kv.2) <$> ecosystem))
                 (Z.of_nat (length ecosystem))
  end.

(** The body of the loop of [enforce_ecosystem_symmetry]. *)
Definition enforce_ecosystem_symmetry_body (lambda_total : spec_float)
    (organism : OrganismState) : result OrganismState :=
  let delta := sub (coherence organism) lambda_total in
  let organism :=
    set_coherence organism (sub (coherence organism) (mul (literal 1 10) delta)) in
  let organism := set_ccce organism (set_lambda_val (ccce organism) (coherence organism)) in
  '(_, c) ← compute_xi (ccce organism);
  Ok (set_ccce organism c).

(** [for organism in self.ecosystem.values(): ...] *)
Fixpoint for_each_entry (body : OrganismState -> result OrganismState)
    (ecosystem : list (string * OrganismState))
  : result (list (string * OrganismState)) :=
  match ecosystem with
  | [] => Ok []
  | (k, organism) :: rest =>
    organism ← body organism;
    rest ← for_each_entry body rest;
    Ok ((k, organism) :: rest)
  end.

(** [OrganismLoader.enforce_ecosystem_symmetry] *)
Definition enforce_ecosystem_symmetry (ecosystem : list (string * OrganismState))
  : result (list (string * OrganismState)) :=
  lambda_total ← compute_ecosystem_lambda ecosystem;
  for_each_entry (enforce_ecosystem_symmetry_body lambda_total) ecosystem.

Record CCCEEngine : Type := mkCCCEEngine {
  state : CCCEState;
  corrections : Z
}.

Definition CCCEEngine_init : CCCEEngine := mkCCCEEngine CCCEState_default 0.

Definition set_corrections (self : CCCEEngine) (v : Z) : CCCEEngine :=
  mkCCCEEngine (state self) v.

(** [CCCEEngine.phase_conjugate_correction] *)
Definition phase_conjugate_correction (self : CCCEEngine) (error : spec_float)
  : result (spec_float * CCCEEngine) :=
  if ltb (abs error) floor then Ok (of_int 0, self)
  else
    corrected ← (if negb (eqb error (of_int 0)) then
                   d ← div (of_int 1) error; Ok (sub error d)
                 else Ok (of_int 0));
    let self := set_corrections self (corrections self + 1)%Z in
    Ok (corrected, self).

(** [CCCEEngine.evolve_step] *)
Definition evolve_step `{Libm} (self : CCCEEngine) (organism : OrganismState)
    (dt : spec_float) : result (OrganismState * CCCEEngine) :=
  (* O_Fractal *)
  let phi_new := sub (mul LAMBDA_PHI (consciousness_phi organism))
                     (mul (entropy organism) (literal 1 100)) in
  let organism := set_consciousness_phi organism (max_0 phi_new) in
  (* O_CRSM *)
  let organism := set_crsm organism (set_t (crsm organism) (add (t (crsm organism)) dt)) in
  s ← math_sin (mul (mul (t (crsm organism)) LAMBDA_PHI) (of_int 1000000));
  let organism := set_crsm organism (set_phi (crsm organism) (mul s PHI_THRESHOLD)) in
  let organism := set_crsm organism
    (set_sigma (crsm organism)
       (add (sigma (crsm organism)) (mul (entropy organism) (literal 1 1000)))) in
  (* O_QPU *)
  let theta_error := sub (theta_val (ccce organism)) THETA_LOCK in
  let organism := set_ccce organism
    (set_theta_val (ccce organism)
       (sub (theta_val (ccce organism)) (mul theta_error (literal 1 10)))) in
  (* O_H *)
  let organism := set_generation organism (generation organism + 1)%Z in
  (* Phase conjugate correction *)
  '(organism, self) ←
    (if ltb (literal 1 10) (entropy organism) then
       '(corrected, self) ← phase_conjugate_correction self (entropy organism);
       Ok (set_entropy organism (abs corrected), self)
     else Ok (organism, self));
  (* Update CCCE state *)
  let organism := set_ccce organism (set_lambda_val (ccce organism) (coherence organism)) in
  let organism := set_ccce organism (set_phi_val (ccce organism) (consciousness_phi organism)) in
  let organism := set_ccce organism (set_gamma_val (ccce organism) (entropy organism)) in
  '(_, c) ← compute_xi (ccce organism);
  let organism := set_ccce organism c in
  (* Mine qBytes if coherence is high *)
  let organism :=
    if ltb (literal 9 10) (coherence organism) then
      set_qbytes organism
        (add (qbytes organism)
             (mul (mul (coherence organism) LAMBDA_PHI) (of_int 10000000)))
    else organism in
  Ok (organism, self).

(** [n] successive calls of [evolve_step] on the same organism. *)
Fixpoint evolve_steps `{Libm} (n : nat) (self : CCCEEngine) (organism : OrganismState)
    (dt : spec_float) : result (OrganismState * CCCEEngine) :=
  match n with
  | O => Ok (organism, self)
  | S n =>
    '(organism, self) ← evolve_step self organism dt;
    evolve_steps n self organism dt
  end.

(** [n] successive calls of [enforce_ecosystem_symmetry]. *)
Fixpoint enforce_times (n : nat) (ecosystem : list (string * OrganismState))
  : result (list (string * OrganismState)) :=
  match n with
  | O => Ok ecosystem
  | S n => ecosystem ← enforce_ecosystem_symmetry ecosystem; enforce_times n ecosystem
  end.

(** The metric for given coherence, consciousness and decoherence, as a
    total function. *)
Definition xi_of (l p g : spec_float) : spec_float :=
  if ltb g floor then inf else SFdiv prec emax (mul l p) g.


(** What [evolve_step] hands to [math.sin]. *)
Definition sine_argument (organism : OrganismState) (dt : spec_float) : spec_float :=
  mul (mul (add (t (crsm organism)) dt) LAMBDA_PHI) (of_int 1000000).

(** What a step that returns leaves in the lock angle, the yield, the
    coherence and the generation. *)
Definition step_post (o o' : OrganismState) : Prop :=
  theta_val (ccce o') =
    sub (theta_val (ccce o)) (mul (sub (theta_val (ccce o)) THETA_LOCK) (literal 1 10)) /\
  qbytes o' =
    (if ltb (literal 9 10) (coherence o)
     then add (qbytes o) (mul (mul (coherence o) LAMBDA_PHI) (of_int 10000000))
     else qbytes o) /\
  coherence o' = coherence o /\
  generation o' = (generation o + 1)%Z.


(** For the worked examples: a sine that answers 0 everywhere (no example
    looks at the phase coordinate it feeds), a just-created organism, and
    a registry of two organisms with coherences 0.5 and 1.0. *)
Definition example_libm : Libm := {| libm_sin := fun _ => of_int 0 |}.

Definition example_organism : OrganismState :=
  new_OrganismState "genesis" "0011223344556677" 0.

Definition example_pair : list (string * OrganismState) :=
  [("aa", set_coherence example_organism (literal 1 2));
   ("bb", set_coherence example_organism (of_int 1))].

End F64.

(** * Properties *)

(** Reduction of record projections, setters and the monad only; the
    arithmetic is left as written. *)
Ltac record_simpl :=
  cbn [fst snd
       set_generation set_crsm set_ccce set_coherence set_entropy
       set_consciousness_phi set_qbytes set_t set_phi set_sigma
       set_lambda_val set_phi_val set_gamma_val set_xi_val set_theta_val
       set_corrections set_state set_logger set_ecosystem
       organism_id genesis_hash generation crsm ccce coherence entropy
       consciousness_phi qbytes status x y z t phi sigma
       lambda_val phi_val gamma_val xi_val theta_val state corrections
       organisms_dir logger ecosystem].

(** ** Comparisons and division *)

Lemma Qlt_bool_iff (a b : Q) : Qlt_bool a b = true <-> a < b.
Proof.
  unfold Qlt_bool. rewrite negb_true_iff. split.
  - intros Hf. apply Qnot_le_lt. intros Hle.
    apply Qle_bool_iff in Hle. congruence.
  - intros Hlt. destruct (Qle_bool b a) eqn:E; [|reflexivity].
    apply Qle_bool_iff in E. exfalso. apply (Qlt_not_le _ _ Hlt E).
Qed.

Lemma Qlt_bool_false_iff (a b : Q) : Qlt_bool a b = false <-> b <= a.
Proof.
  unfold Qlt_bool. rewrite negb_false_iff. apply Qle_bool_iff.
Qed.

Lemma py_div_ok (a b : Q) : ~ b == 0 -> py_div a b = Ok (a / b).
Proof.
  intros Hb. unfold py_div. destruct (Qeq_bool b 0) eqn:E; [|reflexivity].
  apply Qeq_bool_iff in E. contradiction.
Qed.

Lemma py_max_le_l (a b : Q) : a <= py_max a b.
Proof.
  unfold py_max. destruct (Qlt_bool a b) eqn:E.
  - apply Qlt_bool_iff in E. apply Qlt_le_weak, E.
  - apply Qle_refl.
Qed.

(** ** The metric *)

Lemma guarded_div_ok (a g : Q) :
  Qlt_bool g 0.0000000001 = false -> py_div a g = Ok (a / g).
Proof.
  intros Hg. apply Qlt_bool_false_iff in Hg. apply py_div_ok.
  intros Hz. rewrite Hz in Hg. revert Hg. apply Qlt_not_le. reflexivity.
Qed.

Lemma State_compute_xi_ok (self : CCCEState) :
  State.compute_xi self =
  Ok (xi_of (lambda_val self) (phi_val self) (gamma_val self),
      set_xi_val self (xi_of (lambda_val self) (phi_val self) (gamma_val self))).
Proof.
  unfold State.compute_xi, xi_of.
  destruct (Qlt_bool (gamma_val self) 0.0000000001) eqn:E; [reflexivity|].
  rewrite (guarded_div_ok _ _ E). reflexivity.
Qed.

Lemma Engine_compute_xi_ok (self : CCCEEngine) (l p g : Q) :
  Engine.compute_xi self l p g = Ok (xi_of l p g, self).
Proof.
  unfold Engine.compute_xi, xi_of.
  destruct (Qlt_bool g 0.0000000001) eqn:E; [reflexivity|].
  rewrite (guarded_div_ok _ _ E). reflexivity.
Qed.

(** ** The correction *)

Lemma phase_conjugate_correction_above (self : CCCEEngine) (e : Q) :
  0.1 < e ->
  Engine.phase_conjugate_correction self e =
  Ok (e - 1.0 / e, set_corrections self (corrections self + 1)%Z).
Proof.
  intros He. unfold Engine.phase_conjugate_correction.
  assert (Hpos : 0 < e) by lra.
  assert (Hne : ~ e == 0) by lra.
  replace (Qlt_bool (Qabs e) 0.0000000001) with false.
  2:{ symmetry. apply Qlt_bool_false_iff.
      apply Qle_trans with e; [lra | apply Qle_Qabs]. }
  replace (Qeq_bool e 0) with false.
  2:{ symmetry. destruct (Qeq_bool e 0) eqn:E; [|reflexivity].
      apply Qeq_bool_iff in E. contradiction. }
  cbn [negb]. rewrite (py_div_ok _ _ Hne). reflexivity.
Qed.

(** ** One evolution step, field by field *)

Section EvolveStep.
Context `{Runtime}.

(** [evolve_step] never raises, and its result is described by [step_post]. *)
Lemma evolve_step_post (self : CCCEEngine) (o : OrganismState) (dt : Q) :
  exists o' self',
    Engine.evolve_step self o dt = Ok (o', self') /\ step_post self o dt o' self'.
Proof.
  unfold Engine.evolve_step. record_simpl.
  destruct (Qlt_bool 0.1 (entropy o)) eqn:He.
  - rewrite phase_conjugate_correction_above by (apply Qlt_bool_iff, He).
    record_simpl. rewrite State_compute_xi_ok. record_simpl.
    destruct (Qlt_bool 0.9 (coherence o)) eqn:Hc;
      eexists; eexists; (split; [reflexivity|]);
      constructor; record_simpl; rewrite ?He, ?Hc; auto.
  - record_simpl. rewrite State_compute_xi_ok. record_simpl.
    destruct (Qlt_bool 0.9 (coherence o)) eqn:Hc;
      eexists; eexists; (split; [reflexivity|]);
      constructor; record_simpl; rewrite ?He, ?Hc; auto.
Qed.

End EvolveStep.

(** ** C2: the convergence metric *)

(** C2. For all coherence [c], consciousness [p] and decoherence [g],
    [CCCEEngine.compute_xi] returns +infinity when [g < 1e-10] and exactly
    [(c * p) / g] otherwise; it never raises and it returns the engine it
    was called on unchanged.  The method of [CCCEState] computes the same
    value from its own fields and its only write is the [xi_val] field. *)
Theorem compute_xi_spec (self : CCCEEngine) (c p g : Q) :
  (g < 0.0000000001 -> Engine.compute_xi self c p g = Ok (PlusInf, self)) /\
  (~ g < 0.0000000001 -> Engine.compute_xi self c p g = Ok (Finite (c * p / g), self)) /\
  (exists v, Engine.compute_xi self c p g = Ok (v, self) /\
             State.compute_xi (mkCCCEState c p g (Finite 0.0) THETA_LOCK) =
             Ok (v, mkCCCEState c p g v THETA_LOCK)).
Proof.
  rewrite Engine_compute_xi_ok. unfold xi_of. repeat split.
  - intros Hg. apply Qlt_bool_iff in Hg. rewrite Hg. reflexivity.
  - intros Hg. destruct (Qlt_bool g 0.0000000001) eqn:E; [|reflexivity].
    apply Qlt_bool_iff in E. contradiction.
  - eexists. split; [reflexivity|]. rewrite State_compute_xi_ok. reflexivity.
Qed.

Example compute_xi_below_floor :
  Engine.compute_xi CCCEEngine_init 0.97 7.6901 0 = Ok (PlusInf, CCCEEngine_init).
Proof. reflexivity. Qed.

Example compute_xi_defaults :
  Engine.compute_xi CCCEEngine_init 0.97 7.6901 0.001 =
  Ok (Finite (0.97 * 7.6901 / 0.001), CCCEEngine_init).
Proof. reflexivity. Qed.

(** ** C1: the entropy correction gate *)

Section Step.
Context `{Runtime}.

(** C1. One [evolve_step] leaves entropy unchanged (and the correction
    counter too) when entropy <= 0.1; when entropy > 0.1 it replaces
    entropy with |entropy - 1/entropy| and adds exactly 1 to the engine's
    correction counter.  Entropy 0.5 becomes 1.5. *)
Theorem evolve_step_entropy_gate (self : CCCEEngine) (o : OrganismState) (dt : Q) :
  exists o' self',
    Engine.evolve_step self o dt = Ok (o', self') /\
    (entropy o <= 0.1 ->
       entropy o' = entropy o /\ corrections self' = corrections self) /\
    (0.1 < entropy o ->
       entropy o' == Qabs (entropy o - 1 / entropy o) /\
       corrections self' = (corrections self + 1)%Z) /\
    (entropy o == 0.5 -> entropy o' == 1.5).
Proof.
  destruct (evolve_step_post self o dt) as (o' & self' & Hrun & P).
  exists o', self'. split; [exact Hrun|].
  destruct P as [_ _ _ _ _ _ He Hc _ _ _ _ _ _ _ _ _ _ _].
  assert (Habove : 0.1 < entropy o ->
            entropy o' == Qabs (entropy o - 1 / entropy o) /\
            corrections self' = (corrections self + 1)%Z).
  { intros Hgt. apply Qlt_bool_iff in Hgt. rewrite Hgt in He, Hc.
    split; [|exact Hc]. rewrite He. apply Qabs_wd.
    assert (E : 1.0 == 1) by reflexivity. rewrite E. reflexivity. }
  split; [|split].
  - intros Hle. apply Qlt_bool_false_iff in Hle. rewrite Hle in He, Hc.
    split; assumption.
  - exact Habove.
  - intros Hhalf. destruct Habove as [-> _].
    + rewrite Hhalf. reflexivity.
    + rewrite Hhalf. reflexivity.
Qed.

End Step.

Section Steps.
Context `{Runtime}.

Lemma qbytes_step_le (o o' : OrganismState) :
  qbytes o' = (if Qlt_bool 0.9 (coherence o)
               then qbytes o + coherence o * LAMBDA_PHI * 10000000
               else qbytes o) ->
  qbytes o <= qbytes o'.
Proof.
  intros ->. destruct (Qlt_bool 0.9 (coherence o)) eqn:Hc.
  - apply Qlt_bool_iff in Hc. unfold LAMBDA_PHI. lra.
  - apply Qle_refl.
Qed.

(** Any number of successive steps: no exception, the generation counts
    them, coherence is kept, the yield does not decrease, and an entropy
    at or below the gate stays where it is. *)
Lemma evolve_steps_post (n : nat) (self : CCCEEngine) (o : OrganismState) (dt : Q) :
  exists o' self',
    evolve_steps n self o dt = Ok (o', self') /\
    generation o' = (generation o + Z.of_nat n)%Z /\
    coherence o' = coherence o /\
    qbytes o <= qbytes o' /\
    (entropy o <= 0.1 ->
       entropy o' = entropy o /\ corrections self' = corrections self).
Proof.
  revert self o. induction n as [|n IH]; intros self o.
  - exists o, self. split; [reflexivity|]. split; [cbn; lia|].
    split; [reflexivity|]. split; [apply Qle_refl|]. intros _. split; reflexivity.
  - destruct (evolve_step_post self o dt) as (o1 & self1 & Hrun & P).
    destruct (IH self1 o1) as (o' & self' & Hrest & Hg & Hc & Hq & He).
    exists o', self'. split.
    { cbn [evolve_steps]. rewrite Hrun. exact Hrest. }
    split; [rewrite Hg, (post_generation _ _ _ _ _ P); lia|].
    split; [rewrite Hc; apply (post_coherence _ _ _ _ _ P)|].
    split.
    { apply Qle_trans with (qbytes o1); [|exact Hq].
      apply qbytes_step_le, (post_qbytes _ _ _ _ _ P). }
    intros Hle. pose proof (post_entropy _ _ _ _ _ P) as He1.
    pose proof (post_corrections _ _ _ _ _ P) as Hc1.
    apply Qlt_bool_false_iff in Hle. rewrite Hle in He1, Hc1.
    destruct He as [He2 Hc2].
    { rewrite He1. apply Qlt_bool_false_iff, Hle. }
    split; congruence.
Qed.


(** The lock angle in exact arithmetic: one [evolve_step] sets it to
    [theta - 0.1 * (theta - THETA_LOCK)], so its distance to 51.843 after
    the step is exactly 0.9 times the distance before. *)
Lemma evolve_step_angle_relaxation (self : CCCEEngine) (o : OrganismState) (dt : Q) :
  exists o' self',
    Engine.evolve_step self o dt = Ok (o', self') /\
    theta_val (ccce o') ==
      theta_val (ccce o) - 0.1 * (theta_val (ccce o) - THETA_LOCK) /\
    Qabs (theta_val (ccce o') - 51.843) == 0.9 * Qabs (theta_val (ccce o) - 51.843).
Proof.
  destruct (evolve_step_post self o dt) as (o' & self' & Hrun & P).
  exists o', self'. split; [exact Hrun|].
  rewrite (post_theta _ _ _ _ _ P). unfold THETA_LOCK. split; [ring|].
  assert (E : theta_val (ccce o) - (theta_val (ccce o) - 51.843) * 0.1 - 51.843 ==
              0.9 * (theta_val (ccce o) - 51.843)) by ring.
  rewrite E, Qabs_Qmult. reflexivity.
Qed.

(** C7. Every [evolve_step] increases [generation] by exactly 1, for any
    organism; a just-created organism (coherence 0.97, entropy 0.03,
    consciousness 7.6901, generation 0) stepped twice with [dt = 0.1]
    has generation exactly 2 and entropy still exactly 0.03, and no
    correction was counted. *)
Theorem evolve_step_generation (self : CCCEEngine) (o : OrganismState) (dt : Q) :
  (exists o' self',
     Engine.evolve_step self o dt = Ok (o', self') /\
     generation o' = (generation o + 1)%Z) /\
  (forall id hash, exists o2 self2,
     evolve_steps 2 self (new_OrganismState id hash 0) 0.1 = Ok (o2, self2) /\
     coherence (new_OrganismState id hash 0) = 0.97 /\
     consciousness_phi (new_OrganismState id hash 0) = 7.6901 /\
     generation o2 = 2%Z /\ entropy o2 = 0.03 /\
     corrections self2 = corrections self).
Proof.
  split.
  - destruct (evolve_step_post self o dt) as (o' & self' & Hrun & P).
    exists o', self'. split; [exact Hrun | apply (post_generation _ _ _ _ _ P)].
  - intros id hash.
    destruct (evolve_steps_post 2 self (new_OrganismState id hash 0) 0.1)
      as (o2 & self2 & Hrun & Hg & _ & _ & He).
    exists o2, self2. split; [exact Hrun|].
    destruct He as [He Hc]; [cbn; discriminate|].
    repeat split; assumption.
Qed.

End Steps.

(** ** Sums over the registry *)

Lemma foldl_Qplus_acc (l : list Q) (a : Q) : foldl Qplus a l == a + py_sum l.
Proof.
  unfold py_sum. revert a. induction l as [|q l IH]; intros a; cbn [foldl].
  - ring.
  - rewrite (IH (a + q)), (IH (0 + q)). ring.
Qed.

Lemma py_sum_cons (q : Q) (l : list Q) : py_sum (q :: l) == q + py_sum l.
Proof.
  unfold py_sum at 1. cbn [foldl]. rewrite foldl_Qplus_acc. ring.
Qed.




Lemma organisms_length (eco : gmap string OrganismState) :
  length (organisms eco) = size eco.
Proof.
  unfold organisms. rewrite length_fmap. apply length_map_to_list.
Qed.


(** ** Loops over the registry *)

Lemma for_each_value_ok {V : Type} (body : V -> result V) (g : V -> V)
    (m : gmap string V) :
  (forall v, body v = Ok (g v)) -> for_each_value body m = Ok (g <$> m).
Proof.
  intros Hbody. unfold for_each_value.
  assert (Hgen : forall m0 : gmap string V,
    map_fold (fun k v acc => m' ← acc; v' ← body v; Ok (<[k:=v']> m')) (Ok m0) m
    = Ok ((g <$> m) ∪ m0)).
  { intros m0.
    apply (map_fold_weak_ind
             (fun r (m1 : gmap string V) => r = Ok ((g <$> m1) ∪ m0))).
    - rewrite fmap_empty, (left_id_L ∅ (∪)). reflexivity.
    - intros k v m1 r _ ->. cbn. rewrite Hbody. cbn.
      rewrite fmap_insert, insert_union_l. reflexivity. }
  rewrite Hgen. f_equal. apply map_eq. intros k.
  rewrite lookup_union, lookup_fmap. destruct (m !! k); reflexivity.
Qed.

(** ** The population mean and the normalizer *)

Lemma count_nonzero (n : nat) : n <> 0%nat -> ~ inject_Z (Z.of_nat n) == 0.
Proof.
  intros Hn. unfold Qeq. cbn. lia.
Qed.

Lemma compute_ecosystem_lambda_nonempty (self : OrganismLoader) :
  size (ecosystem self) <> 0%nat ->
  Loader.compute_ecosystem_lambda self =
  Ok (py_sum (coherence <$> organisms (ecosystem self)) /
      inject_Z (Z.of_nat (size (ecosystem self)))).
Proof.
  intros Hn. unfold Loader.compute_ecosystem_lambda.
  destruct (Nat.eqb_spec (size (ecosystem self)) 0) as [E|_]; [contradiction|].
  apply py_div_ok, count_nonzero, Hn.
Qed.

Lemma compute_ecosystem_lambda_empty (self : OrganismLoader) :
  size (ecosystem self) = 0%nat -> Loader.compute_ecosystem_lambda self = Ok 0.0.
Proof.
  intros Hn. unfold Loader.compute_ecosystem_lambda. rewrite Hn. reflexivity.
Qed.

Lemma compute_ecosystem_lambda_total (self : OrganismLoader) :
  exists m, Loader.compute_ecosystem_lambda self = Ok m.
Proof.
  destruct (decide (size (ecosystem self) = 0%nat)) as [E|E].
  - eexists. apply compute_ecosystem_lambda_empty, E.
  - eexists. apply compute_ecosystem_lambda_nonempty, E.
Qed.

Lemma enforce_body_ok (m : Q) (o : OrganismState) :
  Loader.enforce_ecosystem_symmetry_body m o = Ok (enforce_result m o).
Proof.
  unfold Loader.enforce_ecosystem_symmetry_body. cbn.
  rewrite State_compute_xi_ok. reflexivity.
Qed.

Lemma enforce_ok (self : OrganismLoader) (m : Q) :
  Loader.compute_ecosystem_lambda self = Ok m ->
  Loader.enforce_ecosystem_symmetry self =
  Ok (set_ecosystem self (enforce_result m <$> ecosystem self)).
Proof.
  intros Hm. unfold Loader.enforce_ecosystem_symmetry. rewrite Hm. cbn.
  rewrite (for_each_value_ok _ (enforce_result m)) by apply enforce_body_ok.
  reflexivity.
Qed.



Lemma py_sum_deviations (m : Q) (l : list Q) :
  py_sum ((fun c => c - m) <$> l) == py_sum l - m * inject_Z (Z.of_nat (length l)).
Proof.
  induction l as [|q l IH].
  - cbn. ring.
  - rewrite fmap_cons, !py_sum_cons, IH.
    cbn [length]. rewrite Nat2Z.inj_succ. unfold Z.succ.
    rewrite inject_Z_plus. ring.
Qed.

(** C9. [compute_ecosystem_lambda] never raises: for the empty registry
    it returns exactly 0, and for a non-empty one the arithmetic mean of
    the coherences, i.e. their sum divided by their number, the value
    around which the deviations sum to zero. *)
Theorem compute_ecosystem_lambda_mean (self : OrganismLoader) :
  (exists m, Loader.compute_ecosystem_lambda self = Ok m) /\
  (ecosystem self = ∅ -> Loader.compute_ecosystem_lambda self = Ok 0.0) /\
  (ecosystem self <> ∅ ->
   exists m,
     Loader.compute_ecosystem_lambda self = Ok m /\
     m = py_sum (coherence <$> organisms (ecosystem self)) /
         inject_Z (Z.of_nat (length (organisms (ecosystem self)))) /\
     m * inject_Z (Z.of_nat (size (ecosystem self))) ==
       py_sum (coherence <$> organisms (ecosystem self)) /\
     py_sum ((fun c => c - m) <$> (coherence <$> organisms (ecosystem self))) == 0).
Proof.
  split; [apply compute_ecosystem_lambda_total|]. split.
  - intros He. apply compute_ecosystem_lambda_empty. rewrite He. apply map_size_empty.
  - intros He.
    assert (Hn : size (ecosystem self) <> 0%nat).
    { intros Hz. apply He, map_size_empty_inv, Hz. }
    eexists. split; [apply compute_ecosystem_lambda_nonempty, Hn|].
    rewrite organisms_length. split; [reflexivity|].
    pose proof (count_nonzero _ Hn) as Hnz.
    split.
    + field. exact Hnz.
    + rewrite py_sum_deviations, length_fmap, organisms_length. field. exact Hnz.
Qed.

Example mean_of_two :
  Loader.compute_ecosystem_lambda
    (mkOrganismLoader "organisms" []
       {[ "a" := set_coherence (new_OrganismState "a" "a" 0) 0.5;
          "b" := set_coherence (new_OrganismState "b" "b" 0) 1.0 ]}) =
  Ok ((0 + 0.5 + 1.0) / 2).
Proof. vm_compute. reflexivity. Qed.



(** ** Geometric decay of the retained factor *)




(** ** The population normalizer in exact arithmetic *)






(** ** Admission *)

Lemma symmetrize_ok (o : OrganismState) :
  exists o',
    Loader.symmetrize o = Ok o' /\
    coherence o' = (coherence o + COHERENCE_MIN) / 2 /\
    lambda_val (ccce o') = coherence o' /\
    xi_val (ccce o') = xi_of (coherence o') (phi_val (ccce o)) (gamma_val (ccce o)).
Proof.
  unfold Loader.symmetrize. cbn. rewrite State_compute_xi_ok. cbn.
  eexists. split; [reflexivity|]. cbn. repeat split; reflexivity.
Qed.

(** Admission of a readable file: the organism is created with the
    dataclass defaults, is not symmetrized, and is registered under its
    genesis hash. *)
Lemma load_organism_found `{Runtime} (self : OrganismLoader) (p content : string) :
  path_exists p = true ->
  path_read_text p = Ok content ->
  let h := Loader.generate_genesis_hash content in
  let o := new_OrganismState (path_stem p) h 0 in
  exists lg,
    Loader.load_organism self p =
    (Some o, mkOrganismLoader (organisms_dir self) lg (<[h := o]> (ecosystem self))).
Proof.
  intros Hex Hrd h o. unfold Loader.load_organism, Loader.load_organism_try.
  rewrite Hex, Hrd. cbn. eexists. reflexivity.
Qed.

(** ** C8: admission of a missing source *)

(** C8. For every path that does not exist, [load_organism] returns
    [None] to its caller instead of raising, writes the not-found notice
    on the AIDEN channel, and leaves the registry mapping as it was. *)
Theorem load_organism_not_found `{Runtime} (self : OrganismLoader) (p : string) :
  path_exists p = false ->
  Loader.load_organism self p =
    (None, set_logger self
             (logger self ++ [("AIDEN", "Organism file not found: " +:+ p)])) /\
  ecosystem (Loader.load_organism self p).2 = ecosystem self.
Proof.
  intros Hex. unfold Loader.load_organism. rewrite Hex. cbn. split; reflexivity.
Qed.

Lemma load_organism_not_found_witness :
  @path_exists example_runtime "missing.dna" = false /\
  (@Loader.load_organism example_runtime example_loader "missing.dna").1 = None /\
  ecosystem (@Loader.load_organism example_runtime example_loader "missing.dna").2 = ∅.
Proof.
  assert (Hex : @path_exists example_runtime "missing.dna" = false) by reflexivity.
  destruct (@load_organism_not_found example_runtime example_loader "missing.dna" Hex)
    as [Hrun Heco].
  split; [exact Hex|]. split; [rewrite Hrun; reflexivity | exact Heco].
Defined.

(** ** C10: the evolution step does not write coherence *)

(** C10. For every organism and every [dt], [evolve_step] returns an
    organism whose coherence is the one it had before, over one step and
    over any number of steps; the writers of coherence are [symmetrize],
    which sets it to [(coherence + COHERENCE_MIN) / 2], and the loop of
    [enforce_ecosystem_symmetry], which sets it to
    [coherence - 0.1 * (coherence - mean)]. *)
Theorem evolve_step_keeps_coherence `{Runtime} (self : CCCEEngine)
    (o : OrganismState) (dt : Q) :
  (exists o' self',
     Engine.evolve_step self o dt = Ok (o', self') /\ coherence o' = coherence o) /\
  (forall n, exists o' self',
     evolve_steps n self o dt = Ok (o', self') /\ coherence o' = coherence o) /\
  (exists o', Loader.symmetrize o = Ok o' /\
              coherence o' = (coherence o + COHERENCE_MIN) / 2) /\
  (forall m, exists o', Loader.enforce_ecosystem_symmetry_body m o = Ok o' /\
                        coherence o' = coherence o - 0.1 * (coherence o - m)).
Proof.
  split; [|split; [|split]].
  - destruct (evolve_step_post self o dt) as (o' & self' & Hrun & P).
    exists o', self'. split; [exact Hrun | apply (post_coherence _ _ _ _ _ P)].
  - intros n. destruct (evolve_steps_post n self o dt)
      as (o' & self' & Hrun & _ & Hc & _).
    exists o', self'. split; assumption.
  - destruct (symmetrize_ok o) as (o' & Hrun & Hc & _).
    exists o'. split; assumption.
  - intros m. exists (enforce_result m o). split; [apply enforce_body_ok | reflexivity].
Qed.

(** ** C5: the stored metric of a just-admitted organism *)

(** C5. Evaluated on the admission of [genesis.dna]: the organism that
    [load_organism] registers and returns stores [xi_val = 0.0], the
    dataclass default, while its coherence 0.97, consciousness 7.6901 and
    decoherence 0.001 give [0.97 * 7.6901 / 0.001]; [is_stable], which
    reads the stored field, answers [False], and answers [True] once
    [compute_xi] has run; the report entry carries the stored 0.0. *)
Theorem fresh_organism_xi_not_computed :
  exists o ld,
    @Loader.load_organism example_runtime example_loader "genesis.dna" = (Some o, ld) /\
    ecosystem ld !! genesis_hash o = Some o /\
    lambda_val (ccce o) = 0.97 /\ phi_val (ccce o) = 7.6901 /\
    gamma_val (ccce o) = 0.001 /\
    xi_val (ccce o) = Finite 0.0 /\
    xi_of (lambda_val (ccce o)) (phi_val (ccce o)) (gamma_val (ccce o)) =
      Finite (0.97 * 7.6901 / 0.001) /\
    ~ XReal_equiv (xi_val (ccce o))
        (xi_of (lambda_val (ccce o)) (phi_val (ccce o)) (gamma_val (ccce o))) /\
    State.is_stable (ccce o) = false /\
    (exists v c, State.compute_xi (ccce o) = Ok (v, c) /\ State.is_stable c = true) /\
    report_ccce_xi (Platform.report_organism (genesis_hash o) o) = Finite 0.0.
Proof.
  eexists. eexists. split; [vm_compute; reflexivity|].
  split; [vm_compute; reflexivity|].
  repeat (split; [reflexivity|]).
  split; [vm_compute; discriminate|].
  split; [reflexivity|].
  split; [|reflexivity].
  eexists. eexists. split; [vm_compute; reflexivity | reflexivity].
Qed.

(** Where the stored metric is current: after an evolution step it is the
    metric of the organism's own coherence, consciousness and entropy, and
    after the normalizer it is the metric of the mirrored fields. *)
Lemma xi_current_after_step `{Runtime} (self : CCCEEngine) (o : OrganismState) (dt : Q) :
  exists o' self',
    Engine.evolve_step self o dt = Ok (o', self') /\
    xi_val (ccce o') = xi_of (coherence o') (consciousness_phi o') (entropy o') /\
    xi_val (ccce o') =
      xi_of (lambda_val (ccce o')) (phi_val (ccce o')) (gamma_val (ccce o')).
Proof.
  destruct (evolve_step_post self o dt) as (o' & self' & Hrun & P).
  exists o', self'. split; [exact Hrun|].
  rewrite (post_lambda _ _ _ _ _ P), (post_phi_val _ _ _ _ _ P),
    (post_gamma _ _ _ _ _ P).
  split; apply (post_xi _ _ _ _ _ P).
Qed.

Lemma xi_current_after_enforce (m : Q) (o : OrganismState) :
  let o' := enforce_result m o in
  lambda_val (ccce o') = coherence o' /\
  xi_val (ccce o') =
    xi_of (lambda_val (ccce o')) (phi_val (ccce o')) (gamma_val (ccce o')).
Proof. split; reflexivity. Qed.

Example evolve_ecosystem_once :
  exists pf o,
    @Platform.evolve_ecosystem example_runtime example_platform 1 = Ok pf /\
    mode pf = "EVOLVED" /\
    organisms (ecosystem (loader pf)) = [o] /\
    generation o = 1%Z /\ entropy o = 0.03 /\
    XReal_equiv (xi_val (ccce o)) (Finite 0) /\
    XReal_equiv (ccce_xi pf) (Finite 0) /\
    corrections (engine pf) = 0%Z.
Proof.
  eexists. eexists. split; [vm_compute; reflexivity|].
  split; [reflexivity|]. split; [vm_compute; reflexivity|].
  repeat split; reflexivity.
Qed.

(** ** The evolution loop *)

Section Loop.
Context `{Runtime}.

(** The inner loop never raises, keeps the keys, and stores under every
    key the result of one [evolve_step] on the organism that was there. *)
Lemma evolve_all_post (eng : CCCEEngine) (eco : gmap string OrganismState) :
  exists eco' eng',
    Platform.evolve_all eng eco = Ok (eco', eng') /\
    (forall k, eco !! k = None -> eco' !! k = None) /\
    (forall k o, eco !! k = Some o ->
       exists o' e1 e2, eco' !! k = Some o' /\
                        Engine.evolve_step e1 o 0.1 = Ok (o', e2)).
Proof.
  unfold Platform.evolve_all.
  assert (Hgen : forall m0 : gmap string OrganismState,
    exists eco' eng',
      map_fold (fun genesis_hash organism acc =>
                  '(eco', eng) ← acc;
                  '(organism, eng) ← Engine.evolve_step eng organism 0.1;
                  Ok (<[genesis_hash := organism]> eco', eng))
               (Ok (m0, eng)) eco = Ok (eco', eng') /\
      (forall k, eco !! k = None -> eco' !! k = m0 !! k) /\
      (forall k o, eco !! k = Some o ->
         exists o' e1 e2, eco' !! k = Some o' /\
                          Engine.evolve_step e1 o 0.1 = Ok (o', e2))).
  { intros m0.
    apply (map_fold_weak_ind
      (fun r (m : gmap string OrganismState) =>
         exists eco' eng',
           r = Ok (eco', eng') /\
           (forall k, m !! k = None -> eco' !! k = m0 !! k) /\
           (forall k o, m !! k = Some o ->
              exists o' e1 e2, eco' !! k = Some o' /\
                               Engine.evolve_step e1 o 0.1 = Ok (o', e2)))).
    - exists m0, eng. split; [reflexivity|]. split; [reflexivity|].
      intros k o Hk. rewrite lookup_empty in Hk. discriminate.
    - intros i o m r Hi (eco1 & eng1 & -> & Hout & Hin).
      destruct (evolve_step_post eng1 o 0.1) as (o' & eng2 & Hrun & _).
      exists (<[i:=o']> eco1), eng2. rewrite Hrun. split; [reflexivity|]. split.
      + intros k Hk. apply lookup_insert_None in Hk as [Hk Hne].
        rewrite lookup_insert_ne by exact Hne. apply Hout, Hk.
      + intros k o0 Hk. destruct (decide (i = k)) as [->|Hne].
        * rewrite lookup_insert_eq in Hk. injection Hk as <-.
          exists o', eng1, eng2. rewrite lookup_insert_eq. split; [reflexivity | exact Hrun].
        * rewrite lookup_insert_ne in Hk by exact Hne.
          rewrite lookup_insert_ne by exact Hne. apply Hin, Hk. }
  destruct (Hgen eco) as (eco' & eng' & Hrun & Hout & Hin).
  exists eco', eng'. split; [exact Hrun|]. split; [|exact Hin].
  intros k Hk. rewrite (Hout k Hk). exact Hk.
Qed.

Lemma xdiv_count_ok (a : XReal) (n : nat) :
  exists v, xdiv a (inject_Z (Z.max 1 (Z.of_nat n))) = Ok v.
Proof.
  assert (Hnz : ~ inject_Z (Z.max 1 (Z.of_nat n)) == 0).
  { unfold Qeq. cbn. lia. }
  destruct a as [p|]; cbn [xdiv].
  - rewrite (py_div_ok _ _ Hnz). eexists. reflexivity.
  - destruct (Qeq_bool _ 0) eqn:E; [|eexists; reflexivity].
    apply Qeq_bool_iff in E. contradiction.
Qed.

(** One iteration of [evolve_ecosystem] never raises, and when its average
    is taken every stored metric is the metric of the organism's current
    coherence, consciousness and entropy. *)
Lemma evolve_iteration_xi_current (ld : OrganismLoader) (eng : CCCEEngine) :
  exists ld' eng' avg_xi,
    Platform.evolve_iteration ld eng = Ok (ld', eng', avg_xi) /\
    forall k o, ecosystem ld' !! k = Some o ->
      xi_val (ccce o) = xi_of (coherence o) (consciousness_phi o) (entropy o).
Proof.
  unfold Platform.evolve_iteration.
  destruct (evolve_all_post eng (ecosystem ld)) as (eco1 & eng1 & Hrun & Hout & Hin).
  rewrite Hrun.
  destruct (compute_ecosystem_lambda_total (set_ecosystem ld eco1)) as (m & Hm).
  rewrite (enforce_ok _ m Hm).
  destruct (xdiv_count_ok
              (py_xsum ((fun o => xi_val (ccce o)) <$>
                        organisms (enforce_result m <$> eco1)))
              (size (enforce_result m <$> eco1))) as (avg & Havg).
  record_simpl. rewrite Havg.
  eexists. eexists. eexists. split; [reflexivity|].
  intros k o Hk. cbn [ecosystem set_ecosystem] in Hk. rewrite lookup_fmap in Hk.
  destruct (eco1 !! k) as [o1|] eqn:Hk1; [|discriminate].
  injection Hk as <-.
  destruct (ecosystem ld !! k) as [o0|] eqn:Hk0.
  - destruct (Hin k o0 Hk0) as (o' & e1 & e2 & Ho' & Hstep).
    rewrite Hk1 in Ho'. injection Ho' as <-.
    destruct (evolve_step_post e1 o0 0.1) as (o2 & e3 & Hstep' & P).
    rewrite Hstep in Hstep'. injection Hstep' as <- <-.
    unfold enforce_result. record_simpl.
    rewrite (post_phi_val _ _ _ _ _ P), (post_gamma _ _ _ _ _ P). reflexivity.
  - rewrite (Hout k Hk0) in Hk1. discriminate.
Qed.

End Loop.

(** * Worked instances *)

(** Entropy 0.5: corrected to 1.5, one correction counted. *)
Lemma evolve_step_entropy_gate_witness :
  exists o' self',
    @Engine.evolve_step example_runtime CCCEEngine_init
      (set_entropy example_organism 0.5) 0.1 = Ok (o', self') /\
    entropy o' == 1.5 /\ corrections self' = 1%Z.
Proof.
  destruct (@evolve_step_entropy_gate example_runtime CCCEEngine_init
              (set_entropy example_organism 0.5) 0.1)
    as (o' & self' & Hrun & _ & Habove & Hhalf).
  exists o', self'. split; [exact Hrun|]. split.
  - apply Hhalf. reflexivity.
  - apply Habove. reflexivity.
Defined.

(** Entropy 0.05: untouched. *)
Example evolve_step_entropy_below :
  exists o' self',
    @Engine.evolve_step example_runtime CCCEEngine_init
      (set_entropy example_organism 0.05) 0.1 = Ok (o', self') /\
    entropy o' = 0.05 /\ corrections self' = 0%Z.
Proof.
  eexists. eexists. split; [vm_compute; reflexivity|]. split; reflexivity.
Qed.

(** The metric at and below the floor. *)
Lemma compute_xi_spec_witness :
  Engine.compute_xi CCCEEngine_init 0.97 7.6901 0.00000000001 =
    Ok (PlusInf, CCCEEngine_init) /\
  Engine.compute_xi CCCEEngine_init 0.97 7.6901 0.001 =
    Ok (Finite (0.97 * 7.6901 / 0.001), CCCEEngine_init).
Proof.
  split.
  - apply (compute_xi_spec CCCEEngine_init 0.97 7.6901 0.00000000001). reflexivity.
  - apply (compute_xi_spec CCCEEngine_init 0.97 7.6901 0.001). discriminate.
Defined.

(** Two steps from the organism that [load_organism] creates. *)
Lemma evolve_step_generation_witness :
  exists o2 self2,
    @evolve_steps example_runtime 2 CCCEEngine_init example_organism 0.1
      = Ok (o2, self2) /\
    generation o2 = 2%Z /\ entropy o2 = 0.03 /\ corrections self2 = 0%Z.
Proof.
  destruct (@evolve_step_generation example_runtime CCCEEngine_init example_organism 0.1)
    as [_ Htwo].
  destruct (Htwo "genesis" "0011223344556677")
    as (o2 & self2 & Hrun & _ & _ & Hg & He & Hc).
  exists o2, self2. repeat split; assumption.
Defined.

(** The mean of 0.5 and 1.0, and the mean of nothing. *)
Lemma compute_ecosystem_lambda_mean_witness :
  (exists m, Loader.compute_ecosystem_lambda example_pair = Ok m /\ m == 0.75) /\
  Loader.compute_ecosystem_lambda example_loader = Ok 0.0.
Proof.
  destruct (compute_ecosystem_lambda_mean example_pair) as (_ & _ & Hne).
  destruct (compute_ecosystem_lambda_mean example_loader) as (_ & He & _).
  split.
  - destruct Hne as (m & Hm & Hv & _).
    { intros Hz. apply (f_equal size) in Hz. vm_compute in Hz. discriminate. }
    exists m. split; [exact Hm|]. rewrite Hv. vm_compute. reflexivity.
  - apply He. reflexivity.
Defined.

(** Coherence 0.5 survives a step, is lifted to 0.735 by [symmetrize] and
    pulled to 0.525 by the normalizer for a mean of 0.75. *)
Lemma evolve_step_keeps_coherence_witness :
  (exists o' self',
     @Engine.evolve_step example_runtime CCCEEngine_init
       (set_coherence example_organism 0.5) 0.1 = Ok (o', self') /\
     coherence o' = 0.5) /\
  (exists o', Loader.symmetrize (set_coherence example_organism 0.5) = Ok o' /\
              coherence o' == 0.735) /\
  (exists o', Loader.enforce_ecosystem_symmetry_body 0.75
                (set_coherence example_organism 0.5) = Ok o' /\
              coherence o' == 0.525).
Proof.
  destruct (@evolve_step_keeps_coherence example_runtime CCCEEngine_init
              (set_coherence example_organism 0.5) 0.1)
    as ((o' & self' & Hrun & Hc) & _ & (o1 & Hs & Hc1) & Hn).
  split; [exists o', self'; split; assumption|]. split.
  - exists o1. split; [exact Hs|]. rewrite Hc1. reflexivity.
  - destruct (Hn 0.75) as (o2 & Hb & Hc2).
    exists o2. split; [exact Hb|]. rewrite Hc2. reflexivity.
Defined.

(** * Further properties of the engine *)

Section StepsInvariant.
Context `{Runtime}.

(** Induction over successive steps: a property indexed by the number of
    steps taken so far, kept by every single step, holds after any number
    of further steps. *)
Lemma evolve_steps_invariant (dt : Q) (P : nat -> OrganismState -> CCCEEngine -> Prop) :
  (forall k o e o' e',
     P k o e -> Engine.evolve_step e o dt = Ok (o', e') -> P (S k) o' e') ->
  forall n k o e,
    P k o e ->
    exists o' e', evolve_steps n e o dt = Ok (o', e') /\ P (k + n)%nat o' e'.
Proof.
  intros Hstep n. induction n as [|n IH]; intros k o e HP.
  - exists o, e. split; [reflexivity|]. rewrite Nat.add_0_r. exact HP.
  - destruct (evolve_step_post e o dt) as (o1 & e1 & Hrun & _).
    destruct (IH (S k) o1 e1 (Hstep _ _ _ _ _ HP Hrun)) as (o' & e' & Hrest & HP').
    exists o', e'. split.
    + cbn [evolve_steps]. rewrite Hrun. exact Hrest.
    + rewrite Nat.add_succ_r. exact HP'.
Qed.

(** The facts of [step_post] for a step that is known to have returned. *)
Lemma evolve_step_inv (self : CCCEEngine) (o : OrganismState) (dt : Q)
    (o' : OrganismState) (self' : CCCEEngine) :
  Engine.evolve_step self o dt = Ok (o', self') -> step_post self o dt o' self'.
Proof.
  intros Hrun. destruct (evolve_step_post self o dt) as (o1 & e1 & Hrun1 & P).
  rewrite Hrun in Hrun1. injection Hrun1 as <- <-. exact P.
Qed.

Lemma entropy_step_nonneg (o o' : OrganismState) :
  entropy o' = (if Qlt_bool 0.1 (entropy o)
                then Qabs (entropy o - 1.0 / entropy o) else entropy o) ->
  0 <= entropy o -> 0 <= entropy o'.
Proof.
  intros -> He. destruct (Qlt_bool 0.1 (entropy o)); [apply Qabs_nonneg | exact He].
Qed.

Lemma py_max_0_nonpos (q : Q) : q <= 0 -> py_max 0 q = 0.
Proof.
  intros Hq. unfold py_max. destruct (Qlt_bool 0 q) eqn:E; [|reflexivity].
  apply Qlt_bool_iff in E. exfalso. apply (Qlt_not_le _ _ E Hq).
Qed.

Lemma py_max_0_le (q b : Q) : 0 <= b -> q <= b -> py_max 0 q <= b.
Proof.
  intros Hb Hq. unfold py_max. destruct (Qlt_bool 0 q); assumption.
Qed.

(** X1. The consciousness level is floored at 0: after one step it is
    never negative, whatever the organism, its entropy and its previous
    consciousness.  For an organism whose entropy and consciousness are
    not negative it has moreover not grown, and is no more than [2.2e-8]
    times what it was. *)
Theorem evolve_step_consciousness_contracts (self : CCCEEngine)
    (o : OrganismState) (dt : Q) :
  exists o' self',
    Engine.evolve_step self o dt = Ok (o', self') /\
    0 <= consciousness_phi o' /\
    (0 <= entropy o -> 0 <= consciousness_phi o ->
       consciousness_phi o' <= 0.000000022 * consciousness_phi o /\
       consciousness_phi o' <= consciousness_phi o).
Proof.
  destruct (evolve_step_post self o dt) as (o' & self' & Hrun & P).
  exists o', self'. split; [exact Hrun|].
  rewrite (post_phi _ _ _ _ _ P).
  split; [apply py_max_le_l|]. intros He Hp. split.
  - apply py_max_0_le; [lra | unfold LAMBDA_PHI; lra].
  - apply py_max_0_le; [exact Hp | unfold LAMBDA_PHI; lra].
Qed.

End StepsInvariant.

Lemma evolve_step_consciousness_contracts_witness :
  exists o' self',
    @Engine.evolve_step example_runtime CCCEEngine_init
      (set_entropy example_organism 0) 0.1 = Ok (o', self') /\
    0 <= consciousness_phi o' /\
    consciousness_phi o' <= 0.000000022 * 7.6901.
Proof.
  destruct (@evolve_step_consciousness_contracts example_runtime CCCEEngine_init
              (set_entropy example_organism 0) 0.1)
    as (o' & self' & Hrun & H0 & Hc).
  exists o', self'. split; [exact Hrun|]. split; [exact H0|].
  apply Hc; discriminate.
Defined.

Section EngineSteps.
Context `{Runtime}.

Lemma xi_of_zero_consciousness (c e : Q) :
  0.0000000001 <= e ->
  exists v, xi_of c 0 e = Finite v /\ v == 0.
Proof.
  intros He. unfold xi_of. apply Qlt_bool_false_iff in He. rewrite He.
  eexists. split; [reflexivity|]. unfold Qdiv. ring.
Qed.

Lemma is_stable_small_xi (c : CCCEState) (v : Q) :
  xi_val c = Finite v -> v <= 0.1 -> State.is_stable c = false.
Proof.
  intros Hx Hv. unfold State.is_stable. rewrite Hx. cbn [xgt_bool].
  apply Qlt_bool_false_iff in Hv. rewrite Hv. reflexivity.
Qed.

(** X2. Collapse of an organism whose entropy sits between the division
    floor and the correction gate and whose consciousness is no more than
    [0.01 * entropy / LAMBDA_PHI]: after the first step and after every
    later one its consciousness is exactly 0, its entropy is unchanged,
    the stored metric is 0 and [is_stable] answers [False]. *)
Theorem evolve_steps_consciousness_collapse (self : CCCEEngine)
    (o : OrganismState) (dt : Q) (n : nat) :
  0.0000000001 <= entropy o -> entropy o <= 0.1 ->
  LAMBDA_PHI * consciousness_phi o <= entropy o * 0.01 ->
  exists o' self',
    evolve_steps (S n) self o dt = Ok (o', self') /\
    consciousness_phi o' = 0 /\ entropy o' = entropy o /\
    (exists v, xi_val (ccce o') = Finite v /\ v == 0) /\
    State.is_stable (ccce o') = false /\
    corrections self' = corrections self.
Proof.
  intros Hlo Hhi Hphi.
  pose (P := fun (k : nat) (o1 : OrganismState) (e1 : CCCEEngine) =>
    entropy o1 = entropy o /\ corrections e1 = corrections self /\
    LAMBDA_PHI * consciousness_phi o1 <= entropy o * 0.01 /\
    ((1 <= k)%nat ->
       consciousness_phi o1 = 0 /\
       (exists v, xi_val (ccce o1) = Finite v /\ v == 0) /\
       State.is_stable (ccce o1) = false)).
  destruct (evolve_steps_invariant dt P) with (n := S n) (k := 0%nat) (o := o) (e := self)
    as (o' & self' & Hrun & He & Hc & _ & Hrest).
  - intros k o1 e1 o2 e2 (He1 & Hc1 & Hp1 & _) Hstep.
    pose proof (evolve_step_inv _ _ _ _ _ Hstep) as Hpost.
    assert (Hgate : Qlt_bool 0.1 (entropy o1) = false).
    { apply Qlt_bool_false_iff. rewrite He1. exact Hhi. }
    assert (He2 : entropy o2 = entropy o).
    { rewrite (post_entropy _ _ _ _ _ Hpost), Hgate. exact He1. }
    assert (Hp2 : consciousness_phi o2 = 0).
    { rewrite (post_phi _ _ _ _ _ Hpost). apply py_max_0_nonpos. rewrite He1. lra. }
    assert (Hx : exists v, xi_val (ccce o2) = Finite v /\ v == 0).
    { rewrite (post_xi _ _ _ _ _ Hpost), Hp2, He2. apply xi_of_zero_consciousness, Hlo. }
    split; [exact He2|]. split.
    { rewrite (post_corrections _ _ _ _ _ Hpost), Hgate. exact Hc1. }
    split; [rewrite Hp2; lra|]. intros _. split; [exact Hp2|]. split; [exact Hx|].
    destruct Hx as (v & Hv & Ev). apply (is_stable_small_xi _ v Hv).
    rewrite Ev. discriminate.
  - split; [reflexivity|]. split; [reflexivity|]. split; [exact Hphi|]. lia.
  - destruct Hrest as (Hp & Hx & Hs); [cbn; lia|].
    exists o', self'. repeat split; assumption.
Qed.

(** X3. Entropy never becomes negative: an organism with non-negative
    entropy has non-negative entropy after any number of steps. *)
Theorem evolve_steps_entropy_nonneg (self : CCCEEngine) (o : OrganismState)
    (dt : Q) (n : nat) :
  0 <= entropy o ->
  exists o' self', evolve_steps n self o dt = Ok (o', self') /\ 0 <= entropy o'.
Proof.
  intros He.
  destruct (evolve_steps_invariant dt (fun _ o1 _ => 0 <= entropy o1))
    with (n := n) (k := 0%nat) (o := o) (e := self) as (o' & self' & Hrun & Hinv).
  - intros k o1 e1 o2 e2 H1 Hstep.
    apply (entropy_step_nonneg o1 o2); [|exact H1].
    apply (post_entropy _ _ _ _ _ (evolve_step_inv _ _ _ _ _ Hstep)).
  - exact He.
  - exists o', self'. split; assumption.
Qed.

(** X4. An entropy above the gate whose correction [|e - 1/e|] falls under
    [1e-10] (entropy 1 is corrected to exactly 0) sends the metric to
    +infinity in the same step, through the division floor and not
    through a division by zero. *)
Theorem evolve_step_entropy_to_floor (self : CCCEEngine) (o : OrganismState) (dt : Q) :
  0.1 < entropy o -> Qabs (entropy o - 1 / entropy o) < 0.0000000001 ->
  exists o' self',
    Engine.evolve_step self o dt = Ok (o', self') /\
    entropy o' < 0.0000000001 /\ xi_val (ccce o') = PlusInf /\
    corrections self' = (corrections self + 1)%Z.
Proof.
  intros Hgate Hsmall.
  destruct (evolve_step_post self o dt) as (o' & self' & Hrun & P).
  exists o', self'. split; [exact Hrun|].
  pose proof (post_entropy _ _ _ _ _ P) as He.
  pose proof (post_corrections _ _ _ _ _ P) as Hc.
  apply Qlt_bool_iff in Hgate. rewrite Hgate in He, Hc.
  assert (Hlt : entropy o' < 0.0000000001).
  { rewrite He. assert (E : 1.0 == 1) by reflexivity. rewrite E. exact Hsmall. }
  split; [exact Hlt|]. split; [|exact Hc].
  rewrite (post_xi _ _ _ _ _ P). unfold xi_of.
  apply Qlt_bool_iff in Hlt. rewrite Hlt. reflexivity.
Qed.

End EngineSteps.

Lemma evolve_steps_consciousness_collapse_witness :
  exists o' self',
    @evolve_steps example_runtime 3 CCCEEngine_init example_organism 0.1
      = Ok (o', self') /\
    consciousness_phi o' = 0 /\ State.is_stable (ccce o') = false.
Proof.
  destruct (@evolve_steps_consciousness_collapse example_runtime CCCEEngine_init
              example_organism 0.1 2)
    as (o' & self' & Hrun & Hp & _ & _ & Hs & _);
    [discriminate | discriminate | discriminate |].
  exists o', self'. repeat split; assumption.
Defined.

Lemma evolve_steps_entropy_nonneg_witness :
  exists o' self',
    @evolve_steps example_runtime 4 CCCEEngine_init
      (set_entropy example_organism 0.5) 0.1 = Ok (o', self') /\
    0 <= entropy o'.
Proof.
  apply (@evolve_steps_entropy_nonneg example_runtime). discriminate.
Defined.

Lemma evolve_step_entropy_to_floor_witness :
  exists o' self',
    @Engine.evolve_step example_runtime CCCEEngine_init
      (set_entropy example_organism 1) 0.1 = Ok (o', self') /\
    entropy o' < 0.0000000001 /\ xi_val (ccce o') = PlusInf /\
    corrections self' = 1%Z.
Proof.
  apply (@evolve_step_entropy_to_floor example_runtime CCCEEngine_init
           (set_entropy example_organism 1) 0.1); reflexivity.
Defined.

Section EngineMore.
Context `{Runtime}.

(** X6. What successive steps never touch: the organism's identifier,
    genesis hash and status, the three spatial coordinates, and the
    engine's own convergence state. *)
Theorem evolve_steps_frame (self : CCCEEngine) (o : OrganismState) (dt : Q) (n : nat) :
  exists o' self',
    evolve_steps n self o dt = Ok (o', self') /\
    organism_id o' = organism_id o /\ genesis_hash o' = genesis_hash o /\
    status o' = status o /\
    x (crsm o') = x (crsm o) /\ y (crsm o') = y (crsm o) /\
    z (crsm o') = z (crsm o) /\
    state self' = state self.
Proof.
  destruct (evolve_steps_invariant dt
              (fun _ o1 e1 =>
                 organism_id o1 = organism_id o /\ genesis_hash o1 = genesis_hash o /\
                 status o1 = status o /\
                 x (crsm o1) = x (crsm o) /\ y (crsm o1) = y (crsm o) /\
                 z (crsm o1) = z (crsm o) /\ state e1 = state self))
    with (n := n) (k := 0%nat) (o := o) (e := self) as (o' & self' & Hrun & Hinv).
  - intros k o1 e1 o2 e2 (Hi & Hh & Hs & Hx & Hy & Hz & Hst) Hstep.
    pose proof (evolve_step_inv _ _ _ _ _ Hstep) as P.
    destruct (post_xyz _ _ _ _ _ P) as (Px & Py & Pz).
    rewrite (post_id _ _ _ _ _ P), (post_hash _ _ _ _ _ P), (post_status _ _ _ _ _ P),
      (post_state _ _ _ _ _ P), Px, Py, Pz.
    repeat split; assumption.
  - repeat split; reflexivity.
  - exists o', self'. split; assumption.
Qed.

(** X7. The correction counter only grows, and by at most one per step:
    after [n] steps it lies between its old value and its old value plus
    [n]. *)
Theorem evolve_steps_corrections_bounded (self : CCCEEngine) (o : OrganismState)
    (dt : Q) (n : nat) :
  exists o' self',
    evolve_steps n self o dt = Ok (o', self') /\
    (corrections self <= corrections self' <= corrections self + Z.of_nat n)%Z.
Proof.
  destruct (evolve_steps_invariant dt
              (fun k _ e1 =>
                 (corrections self <= corrections e1 <= corrections self + Z.of_nat k)%Z))
    with (n := n) (k := 0%nat) (o := o) (e := self) as (o' & self' & Hrun & Hinv).
  - intros k o1 e1 o2 e2 H1 Hstep.
    rewrite (post_corrections _ _ _ _ _ (evolve_step_inv _ _ _ _ _ Hstep)).
    destruct (Qlt_bool 0.1 (entropy o1)); lia.
  - lia.
  - exists o', self'. split; assumption.
Qed.

(** X8. After a step the stored metric is already the current one: running
    [CCCEState.compute_xi] on the stepped organism returns the stored
    value and leaves the state exactly as it is. *)
Theorem evolve_step_metric_is_current (self : CCCEEngine) (o : OrganismState) (dt : Q) :
  exists o' self',
    Engine.evolve_step self o dt = Ok (o', self') /\
    State.compute_xi (ccce o') = Ok (xi_val (ccce o'), ccce o').
Proof.
  destruct (evolve_step_post self o dt) as (o' & self' & Hrun & P).
  exists o', self'. split; [exact Hrun|].
  rewrite State_compute_xi_ok.
  rewrite (post_lambda _ _ _ _ _ P), (post_phi_val _ _ _ _ _ P),
    (post_gamma _ _ _ _ _ P), <- (post_xi _ _ _ _ _ P).
  destruct (ccce o'). reflexivity.
Qed.

(** X9. Over any number of steps, the evolutionary time coordinate of an
    organism that is stepped with a non-negative [dt] never runs
    backwards, and the curvature coordinate of an organism with
    non-negative entropy never decreases. *)
Theorem evolve_steps_time_and_curvature (self : CCCEEngine) (o : OrganismState)
    (dt : Q) (n : nat) :
  exists o' self',
    evolve_steps n self o dt = Ok (o', self') /\
    (0 <= dt -> t (crsm o) <= t (crsm o')) /\
    (0 <= entropy o -> sigma (crsm o) <= sigma (crsm o')).
Proof.
  destruct (evolve_steps_invariant dt
              (fun _ o1 _ =>
                 (0 <= dt -> t (crsm o) <= t (crsm o1)) /\
                 (0 <= entropy o ->
                    sigma (crsm o) <= sigma (crsm o1) /\ 0 <= entropy o1)))
    with (n := n) (k := 0%nat) (o := o) (e := self)
    as (o' & self' & Hrun & Ht & Hs).
  - intros k o1 e1 o2 e2 (Ht & Hs) Hstep.
    pose proof (evolve_step_inv _ _ _ _ _ Hstep) as P.
    rewrite (post_t _ _ _ _ _ P), (post_sigma _ _ _ _ _ P).
    split.
    + intros Hdt. specialize (Ht Hdt). lra.
    + intros He. destruct (Hs He) as (Hs1 & He1). split; [lra|].
      apply (entropy_step_nonneg o1 o2); [apply (post_entropy _ _ _ _ _ P) | exact He1].
  - split; [intros _; apply Qle_refl|]. intros He. split; [apply Qle_refl | exact He].
  - exists o', self'. split; [exact Hrun|]. split; [exact Ht|].
    intros He. apply (Hs He).
Qed.

End EngineMore.

Lemma evolve_steps_time_and_curvature_witness :
  exists o' self',
    @evolve_steps example_runtime 5 CCCEEngine_init example_organism 0.1
      = Ok (o', self') /\
    0 <= t (crsm o') /\ 0 <= sigma (crsm o').
Proof.
  destruct (@evolve_steps_time_and_curvature example_runtime CCCEEngine_init
              example_organism 0.1 5)
    as (o' & self' & Hrun & Ht & Hs).
  exists o', self'. split; [exact Hrun|].
  split; [apply Ht | apply Hs]; discriminate.
Defined.

(** ** The correction and the convergence test on their own *)

(** X10. [phase_conjugate_correction] returns on every input, zero
    included: below [1e-10] in absolute value it answers 0 and leaves the
    engine alone; from [1e-10] on it answers [error - 1/error], negative
    errors too, and counts exactly one correction. *)
Theorem phase_conjugate_correction_total (self : CCCEEngine) (error : Q) :
  exists v self',
    Engine.phase_conjugate_correction self error = Ok (v, self') /\
    (Qabs error < 0.0000000001 -> v = 0.0 /\ self' = self) /\
    (0.0000000001 <= Qabs error ->
       v == error - 1 / error /\
       corrections self' = (corrections self + 1)%Z /\ state self' = state self).
Proof.
  unfold Engine.phase_conjugate_correction.
  destruct (Qlt_bool (Qabs error) 0.0000000001) eqn:Hsmall.
  - exists 0.0, self. split; [reflexivity|]. split; [intros _; split; reflexivity|].
    intros Hbig. apply Qlt_bool_iff in Hsmall. exfalso. apply (Qlt_not_le _ _ Hsmall Hbig).
  - apply Qlt_bool_false_iff in Hsmall.
    assert (Hne : ~ error == 0).
    { intros Hz. rewrite Hz in Hsmall. revert Hsmall. apply Qlt_not_le. reflexivity. }
    destruct (Qeq_bool error 0) eqn:E; [apply Qeq_bool_iff in E; contradiction|].
    cbn [negb]. rewrite (py_div_ok _ _ Hne).
    eexists. eexists. split; [reflexivity|]. split.
    + intros Hlt. exfalso. apply (Qlt_not_le _ _ Hlt Hsmall).
    + intros _. split; [|split; reflexivity].
      assert (E1 : 1.0 == 1) by reflexivity. rewrite E1. reflexivity.
Qed.

(** X11. [check_convergence] returns on every engine, keeps the correction
    counter, and its answer is the one [is_stable] gives on the state it
    leaves behind; the answer does not depend on the [xi_val] that was
    stored before the call, and a second call gives the same answer and
    state. *)
Theorem check_convergence_recomputes (self : CCCEEngine) (stale : XReal) :
  exists b self',
    Engine.check_convergence self = Ok (b, self') /\
    b = State.is_stable (state self') /\
    corrections self' = corrections self /\
    Engine.check_convergence (set_state self (set_xi_val (state self) stale))
      = Ok (b, self') /\
    Engine.check_convergence self' = Ok (b, self').
Proof.
  unfold Engine.check_convergence. rewrite !State_compute_xi_ok.
  record_simpl. eexists. eexists. split; [reflexivity|].
  split; [reflexivity|]. split; [reflexivity|]. split; [reflexivity|].
  rewrite State_compute_xi_ok. reflexivity.
Qed.

(** * Further properties of the registry *)

Section Admission.
Context `{Runtime}.

(** The whole effect of admitting an existing, readable file. *)
Lemma load_organism_found_full (self : OrganismLoader) (p content : string) :
  path_exists p = true -> path_read_text p = Ok content ->
  let h := Loader.generate_genesis_hash content in
  let o := new_OrganismState (path_stem p) h 0 in
  Loader.load_organism self p =
  (Some o,
   mkOrganismLoader (organisms_dir self)
     (logger self ++
        [("PLATFORM", "Loaded organism: " +:+ path_stem p +:+ " [" +:+
            String.substring 0 8 h +:+ "...]")])
     (<[h := o]> (ecosystem self))).
Proof.
  intros Hex Hrd h o. unfold Loader.load_organism, Loader.load_organism_try.
  rewrite Hex, Hrd. cbn [negb]. fold h. fold o.
  change (Loader.check_lambda_symmetry o) with true.
  reflexivity.
Qed.

(** X12. Admission of an existing, readable file returns the organism it
    registers: a default organism of generation 0 named after the file
    stem, stored under the 16-character genesis hash of the content; every
    other key of the registry keeps its organism; the log grows by the one
    PLATFORM notice, so no symmetrization notice is ever written on this
    path. *)
Theorem load_organism_registers (self : OrganismLoader) (p content : string) :
  path_exists p = true -> path_read_text p = Ok content ->
  exists o self',
    Loader.load_organism self p = (Some o, self') /\
    o = new_OrganismState (path_stem p) (Loader.generate_genesis_hash content) 0 /\
    ecosystem self' !! genesis_hash o = Some o /\
    (forall k, k <> genesis_hash o -> ecosystem self' !! k = ecosystem self !! k) /\
    logger self' = logger self ++
      [("PLATFORM", "Loaded organism: " +:+ path_stem p +:+ " [" +:+
          String.substring 0 8 (Loader.generate_genesis_hash content) +:+ "...]")] /\
    organisms_dir self' = organisms_dir self.
Proof.
  intros Hex Hrd. rewrite (load_organism_found_full self p content Hex Hrd).
  eexists. eexists. split; [reflexivity|]. split; [reflexivity|].
  cbn [ecosystem logger organisms_dir genesis_hash new_OrganismState].
  split; [apply lookup_insert_eq|]. split.
  - intros k Hk. apply lookup_insert_ne. congruence.
  - split; reflexivity.
Qed.

(** X13. Admission of a file that exists but cannot be read: the exception
    is caught, [None] is returned, the registry keeps every entry, and the
    failure notice carrying the exception text goes to the AIDEN
    channel. *)
Theorem load_organism_unreadable (self : OrganismLoader) (p : string) (e : exn) :
  path_exists p = true -> path_read_text p = Raise e ->
  Loader.load_organism self p =
    (None, set_logger self
             (logger self ++ [("AIDEN", "Failed to load organism: " +:+ exn_message e)])).
Proof.
  intros Hex Hrd. unfold Loader.load_organism, Loader.load_organism_try.
  rewrite Hex, Hrd. reflexivity.
Qed.

(** X14. Two files with the same content collide on the genesis hash: the
    second admission replaces the organism stored by the first (the last
    file's stem wins), the registry does not grow, and nothing but the
    usual PLATFORM notice is logged. *)
Theorem load_organism_same_content (self : OrganismLoader) (p1 p2 content : string) :
  path_exists p1 = true -> path_read_text p1 = Ok content ->
  path_exists p2 = true -> path_read_text p2 = Ok content ->
  exists o1 o2 self1 self2,
    Loader.load_organism self p1 = (Some o1, self1) /\
    Loader.load_organism self1 p2 = (Some o2, self2) /\
    genesis_hash o1 = genesis_hash o2 /\
    ecosystem self2 !! genesis_hash o1 = Some o2 /\
    organism_id o2 = path_stem p2 /\
    size (ecosystem self2) = size (ecosystem self1) /\
    ecosystem self2 = <[genesis_hash o2 := o2]> (ecosystem self) /\
    length (logger self2) = S (S (length (logger self))).
Proof.
  intros Hex1 Hrd1 Hex2 Hrd2.
  eexists. eexists. eexists. eexists.
  split; [apply (load_organism_found_full self p1 content Hex1 Hrd1)|].
  split; [apply (load_organism_found_full _ p2 content Hex2 Hrd2)|].
  cbn [ecosystem logger organisms_dir genesis_hash organism_id new_OrganismState].
  split; [reflexivity|]. split; [apply lookup_insert_eq|]. split; [reflexivity|].
  split.
  { rewrite insert_insert_eq. rewrite !map_size_insert.
    destruct (ecosystem self !! Loader.generate_genesis_hash content); reflexivity. }
  split; [apply insert_insert_eq|].
  rewrite !length_app. cbn [length]. lia.
Qed.

End Admission.


(** ** The normalizer *)

(** X18. The normalizer writes three things per organism and nothing else:
    the coherence, its mirror [lambda_val], and the stored metric, which it
    recomputes from the new coherence and the mirrored consciousness and
    decoherence as they were, not from the organism's own consciousness
    and entropy.  The keys, the directory and the log are kept. *)
Theorem enforce_frame (self : OrganismLoader) :
  exists m self',
    Loader.compute_ecosystem_lambda self = Ok m /\
    Loader.enforce_ecosystem_symmetry self = Ok self' /\
    dom (ecosystem self') = dom (ecosystem self) /\
    organisms_dir self' = organisms_dir self /\ logger self' = logger self /\
    forall k o, ecosystem self !! k = Some o ->
      exists o',
        ecosystem self' !! k = Some o' /\
        lambda_val (ccce o') = coherence o' /\
        xi_val (ccce o') =
          xi_of (coherence o') (phi_val (ccce o)) (gamma_val (ccce o)) /\
        set_ccce (set_coherence o' (coherence o))
          (mkCCCEState (lambda_val (ccce o)) (phi_val (ccce o')) (gamma_val (ccce o'))
             (xi_val (ccce o)) (theta_val (ccce o'))) = o.
Proof.
  destruct (compute_ecosystem_lambda_total self) as (m & Hm).
  exists m. eexists. split; [exact Hm|]. split; [apply (enforce_ok self m Hm)|].
  cbn [ecosystem set_ecosystem organisms_dir logger].
  split; [apply dom_fmap_L|]. split; [reflexivity|]. split; [reflexivity|].
  intros k o Hk. exists (enforce_result m o).
  split; [rewrite lookup_fmap, Hk; reflexivity|].
  split; [reflexivity|]. split; [reflexivity|].
  destruct o as [? ? ? ? [? ? ? ? ?] ? ? ? ? ?]. reflexivity.
Qed.

(** * Further properties of the platform *)

Section Ecosystem.
Context `{Runtime}.

(** One iteration of the outer loop, organism by organism: each one is
    stepped once and then pulled toward the mean. *)
Lemma evolve_iteration_post (ld : OrganismLoader) (eng : CCCEEngine) :
  exists ld' eng' avg_xi m,
    Platform.evolve_iteration ld eng = Ok (ld', eng', avg_xi) /\
    organisms_dir ld' = organisms_dir ld /\ logger ld' = logger ld /\
    (forall k, ecosystem ld !! k = None -> ecosystem ld' !! k = None) /\
    (forall k o, ecosystem ld !! k = Some o ->
       exists o1 e1 e2,
         Engine.evolve_step e1 o 0.1 = Ok (o1, e2) /\
         ecosystem ld' !! k = Some (enforce_result m o1)).
Proof.
  unfold Platform.evolve_iteration.
  destruct (evolve_all_post eng (ecosystem ld)) as (eco1 & eng1 & Hrun & Hout & Hin).
  rewrite Hrun.
  destruct (compute_ecosystem_lambda_total (set_ecosystem ld eco1)) as (m & Hm).
  rewrite (enforce_ok _ m Hm).
  destruct (xdiv_count_ok
              (py_xsum ((fun o => xi_val (ccce o)) <$>
                        organisms (enforce_result m <$> eco1)))
              (size (enforce_result m <$> eco1))) as (avg & Havg).
  record_simpl. rewrite Havg.
  eexists. eexists. eexists. exists m. split; [reflexivity|].
  record_simpl. split; [reflexivity|]. split; [reflexivity|]. split.
  - intros k Hk. rewrite lookup_fmap, (Hout k Hk). reflexivity.
  - intros k o Hk. destruct (Hin k o Hk) as (o1 & e1 & e2 & Hk1 & Hstep).
    exists o1, e1, e2. split; [exact Hstep|]. rewrite lookup_fmap, Hk1. reflexivity.
Qed.

(** What [n] iterations do to the registry, key by key. *)
Lemma evolve_iterations_post (n : nat) (self : UnifiedPlatform) :
  exists self',
    Platform.evolve_iterations n self = Ok self' /\
    organisms_loaded self' = organisms_loaded self /\ mode self' = mode self /\
    logger (loader self') = logger (loader self) /\
    dom (ecosystem (loader self')) = dom (ecosystem (loader self)) /\
    forall k o, ecosystem (loader self) !! k = Some o ->
      exists o',
        ecosystem (loader self') !! k = Some o' /\
        generation o' = (generation o + Z.of_nat n)%Z /\
        organism_id o' = organism_id o /\ genesis_hash o' = genesis_hash o /\
        status o' = status o /\ qbytes o <= qbytes o'.
Proof.
  revert self. induction n as [|n IH]; intros self.
  - exists self. split; [reflexivity|]. repeat (split; [reflexivity|]).
    intros k o Hk. exists o. split; [exact Hk|]. split; [cbn; lia|].
    repeat (split; [reflexivity|]). apply Qle_refl.
  - destruct (evolve_iteration_post (loader self) (engine self))
      as (ld1 & eng1 & avg & m & Hrun & Hdir & Hlog & Hout & Hin).
    destruct (IH (mkUnifiedPlatform ld1 eng1 (organisms_loaded self) avg (mode self)))
      as (self' & Hrest & Hcnt & Hmode & Hlog' & Hdom & Hkeys).
    exists self'. split; [cbn [Platform.evolve_iterations]; rewrite Hrun; exact Hrest|].
    cbn [organisms_loaded mode loader] in Hcnt, Hmode, Hlog', Hdom, Hkeys.
    split; [exact Hcnt|]. split; [exact Hmode|].
    split; [rewrite Hlog'; exact Hlog|]. split.
    + rewrite Hdom. apply set_eq. intros k. rewrite !elem_of_dom.
      destruct (ecosystem (loader self) !! k) as [o|] eqn:Hk.
      * destruct (Hin k o Hk) as (o1 & e1 & e2 & _ & Hk1). rewrite Hk1.
        split; intros _; eexists; reflexivity.
      * rewrite (Hout k Hk). reflexivity.
    + intros k o Hk. destruct (Hin k o Hk) as (o1 & e1 & e2 & Hstep & Hk1).
      destruct (Hkeys k _ Hk1) as (o' & Hk' & Hg & Hi & Hh & Hs & Hq).
      pose proof (evolve_step_inv _ _ _ _ _ Hstep) as P.
      cbn [generation organism_id genesis_hash status qbytes enforce_result
           set_ccce set_coherence] in Hg, Hi, Hh, Hs, Hq.
      exists o'. split; [exact Hk'|].
      split; [rewrite Hg, (post_generation _ _ _ _ _ P); lia|].
      split; [rewrite Hi; apply (post_id _ _ _ _ _ P)|].
      split; [rewrite Hh; apply (post_hash _ _ _ _ _ P)|].
      split; [rewrite Hs; apply (post_status _ _ _ _ _ P)|].
      apply Qle_trans with (qbytes o1); [|exact Hq].
      apply qbytes_step_le, (post_qbytes _ _ _ _ _ P).
Qed.

(** X19. [evolve_ecosystem] never raises, whatever the registry (empty
    included) and the iteration count (zero and negative included).  It
    keeps the set of keys and the loaded-organisms counter, sets the mode
    to EVOLVED, and appends exactly two notices to the log, both on the
    CCCE channel: the opening one with the iteration count as given, and
    the closing one with the platform metric it ends with.  Every organism
    comes out with its identifier, genesis hash and status unchanged, its
    generation raised by the number of iterations run, and a yield that
    has not decreased; the organism status is never set to anything else
    by the evolution. *)
Theorem evolve_ecosystem_post (self : UnifiedPlatform) (iterations : Z) :
  exists self',
    Platform.evolve_ecosystem self iterations = Ok self' /\
    mode self' = "EVOLVED" /\
    organisms_loaded self' = organisms_loaded self /\
    logger (loader self') =
      logger (loader self) ++
      [("CCCE", "Evolving ecosystem for " +:+ pretty iterations +:+ " iterations...");
       ("CCCE", "Evolution complete. CCCE Ξ: " +:+ format_4f (ccce_xi self'))] /\
    dom (ecosystem (loader self')) = dom (ecosystem (loader self)) /\
    forall k o, ecosystem (loader self) !! k = Some o ->
      exists o',
        ecosystem (loader self') !! k = Some o' /\
        generation o' = (generation o + Z.max 0 iterations)%Z /\
        organism_id o' = organism_id o /\ genesis_hash o' = genesis_hash o /\
        status o' = status o /\ qbytes o <= qbytes o'.
Proof.
  unfold Platform.evolve_ecosystem. cbv zeta.
  destruct (evolve_iterations_post (Z.to_nat iterations)
              (Platform.log_notice self
                 ("Evolving ecosystem for " +:+ pretty iterations +:+ " iterations...")))
    as (self' & Hrun & Hcnt & _ & Hlog & Hdom & Hkeys).
  rewrite Hrun. eexists. split; [reflexivity|].
  cbn [Platform.log_notice mode organisms_loaded loader ccce_xi logger ecosystem
       set_logger] in *.
  split; [reflexivity|]. split; [exact Hcnt|].
  split; [rewrite Hlog; unfold log_ccce; rewrite <- app_assoc; reflexivity|].
  split; [exact Hdom|].
  intros k o Hk. destruct (Hkeys k o Hk) as (o' & Hk' & Hg & Hrest).
  exists o'. split; [exact Hk'|]. split; [rewrite Hg; lia | exact Hrest].
Qed.

End Ecosystem.

Section LoadOrganisms.
Context `{Runtime}.

(** Every call of [load_organism], admitted or not. *)
Lemma load_organism_cases (self : OrganismLoader) (p : string) :
  exists r self',
    Loader.load_organism self p = (r, self') /\
    length (logger self') = S (length (logger self)) /\
    organisms_dir self' = organisms_dir self /\
    (admitted p = true ->
       exists o, r = Some o /\
                 ecosystem self' = <[genesis_hash o := o]> (ecosystem self)) /\
    (admitted p = false -> r = None /\ ecosystem self' = ecosystem self).
Proof.
  unfold admitted.
  destruct (path_exists p) eqn:Hex; [destruct (path_read_text p) as [content|e] eqn:Hrd|].
  - rewrite (load_organism_found_full self p content Hex Hrd).
    eexists. eexists. split; [reflexivity|]. cbn [logger organisms_dir ecosystem].
    split; [rewrite length_app; cbn; lia|]. split; [reflexivity|]. split.
    + intros _. eexists. split; reflexivity.
    + discriminate.
  - unfold Loader.load_organism, Loader.load_organism_try. rewrite Hex, Hrd.
    eexists. eexists. split; [reflexivity|]. cbn [logger organisms_dir ecosystem set_logger].
    split; [unfold log_aiden; rewrite length_app; cbn; lia|].
    split; [reflexivity|]. split; [discriminate|]. intros _. split; reflexivity.
  - unfold Loader.load_organism. rewrite Hex.
    eexists. eexists. split; [reflexivity|]. cbn [logger organisms_dir ecosystem set_logger].
    split; [unfold log_aiden; rewrite length_app; cbn; lia|].
    split; [reflexivity|]. split; [discriminate|]. intros _. split; reflexivity.
Qed.

Lemma load_organisms_loop (files : list string) (ld : OrganismLoader) (n : Z) :
  exists ld' n',
    foldl (fun '(ld, n) dna_file =>
             let '(organism, ld) := Loader.load_organism ld dna_file in
             match organism with
             | Some _ => (ld, (n + 1)%Z)
             | None => (ld, n)
             end) (ld, n) files = (ld', n') /\
    n' = (n + Z.of_nat (length (filter (fun p => admitted p = true) files)))%Z /\
    (size (ecosystem ld') <=
       size (ecosystem ld) + length (filter (fun p => admitted p = true) files))%nat /\
    dom (ecosystem ld) ⊆ dom (ecosystem ld') /\
    length (logger ld') = (length (logger ld) + length files)%nat /\
    organisms_dir ld' = organisms_dir ld.
Proof.
  revert ld n. induction files as [|p files IH]; intros ld n.
  - exists ld, n. cbn. repeat split; try lia. reflexivity.
  - destruct (load_organism_cases ld p) as (r & ld1 & Hrun & Hlog & Hdir & Hyes & Hno).
    cbn [foldl]. rewrite Hrun.
    destruct (admitted p) eqn:Hadm.
    + clear Hno. destruct (Hyes eq_refl) as (o & Hr & Heco). subst r.
      destruct (IH ld1 (n + 1)%Z) as (ld' & n' & Hfold & Hn & Hsz & Hdom & Hlg & Hd).
      exists ld', n'. split; [exact Hfold|].
      rewrite filter_cons_True by exact Hadm. cbn [length].
      split; [lia|]. split.
      { rewrite Heco in Hsz. pose proof (map_size_insert (genesis_hash o) o (ecosystem ld)) as Hs.
        destruct (ecosystem ld !! genesis_hash o); cbn in Hs; lia. }
      split.
      { etransitivity; [|exact Hdom]. rewrite Heco, dom_insert_L. set_solver. }
      split; [lia | congruence].
    + clear Hyes. destruct (Hno eq_refl) as (Hr & Heco). subst r.
      destruct (IH ld1 n) as (ld' & n' & Hfold & Hn & Hsz & Hdom & Hlg & Hd).
      exists ld', n'. split; [exact Hfold|].
      rewrite filter_cons_False by (rewrite Hadm; discriminate).
      rewrite Heco in Hsz, Hdom. cbn [length].
      split; [exact Hn|]. split; [exact Hsz|]. split; [exact Hdom|].
      split; [lia | congruence].
Qed.

(** X20. [load_organisms] counts admissions, not registry entries: the
    counter grows by the number of paths that exist and can be read, the
    registry grows by at most that number (two files with the same content
    share one entry), no registered key is lost, the engine is not
    touched, and the log receives one entry per path plus the opening and
    the closing notice. *)
Theorem load_organisms_counts (self : UnifiedPlatform) (files : list string) :
  let self' := load_organisms self files in
  let count := length (filter (fun p => admitted p = true) files) in
  organisms_loaded self' = (organisms_loaded self + Z.of_nat count)%Z /\
  (size (ecosystem (loader self')) <= size (ecosystem (loader self)) + count)%nat /\
  dom (ecosystem (loader self)) ⊆ dom (ecosystem (loader self')) /\
  length (logger (loader self')) = (length (logger (loader self)) + length files + 2)%nat /\
  engine self' = engine self /\ ccce_xi self' = ccce_xi self /\ mode self' = mode self.
Proof.
  intros self' count. subst self' count. unfold load_organisms.
  destruct (load_organisms_loop files
              (set_logger (loader self)
                 (log_platform (logger (loader self)) "Loading organisms..."))
              (organisms_loaded self))
    as (ld' & n' & Hfold & Hn & Hsz & Hdom & Hlg & _).
  rewrite Hfold. cbn [organisms_loaded loader engine ccce_xi mode logger set_logger ecosystem].
  cbn [ecosystem set_logger logger] in Hsz, Hdom, Hlg.
  split; [exact Hn|]. split; [exact Hsz|]. split; [exact Hdom|].
  split; [|repeat split].
  unfold log_platform in *. rewrite length_app in *. cbn [length] in *. lia.
Qed.

End LoadOrganisms.

(** Twins: two admissions counted, one registry entry. *)
Example load_organisms_twins :
  let self' := @load_organisms example_runtime_twins (Platform.init "organisms")
                 ["alpha.dna"; "beta.dna"; "locked.dna"; "absent.dna"] in
  organisms_loaded self' = 2%Z /\ size (ecosystem (loader self')) = 1%nat /\
  length (logger (loader self')) = 6%nat.
Proof. vm_compute. repeat split. Qed.

(** X21. The organisms section of the report has exactly one entry per
    registered organism, no key twice, and an entry is in the report
    exactly when it is the snapshot of the organism stored under its
    genesis-hash key: every field, the stored metric included, is read
    as it is. *)
Theorem report_organisms_complete (self : UnifiedPlatform) :
  length (Platform.report_organisms self) = size (ecosystem (loader self)) /\
  NoDup (report_genesis_hash <$> Platform.report_organisms self) /\
  forall r, r ∈ Platform.report_organisms self <->
    exists o, ecosystem (loader self) !! report_genesis_hash r = Some o /\
              r = Platform.report_organism (report_genesis_hash r) o.
Proof.
  unfold Platform.report_organisms. split; [|split].
  - rewrite length_fmap. apply length_map_to_list.
  - rewrite <- list_fmap_compose.
    rewrite (list_fmap_ext _ fst (map_to_list (ecosystem (loader self))))
      by (intros _ [k o] _; reflexivity).
    apply NoDup_fst_map_to_list.
  - intros r. rewrite list_elem_of_fmap. split.
    + intros ([k o] & -> & Hin). apply elem_of_map_to_list in Hin.
      exists o. split; [exact Hin | reflexivity].
    + intros (o & Hk & Hr). exists (report_genesis_hash r, o).
      split; [exact Hr | apply elem_of_map_to_list; exact Hk].
Qed.

(** * Properties of the corpus analyzer *)

Lemma completed_count_snoc (l : list Corpus.QuantumJobResult) (j : Corpus.QuantumJobResult) :
  Corpus.completed_count (l ++ [j]) =
  (Corpus.completed_count l + if Corpus.success j then 1 else 0)%Z.
Proof.
  unfold Corpus.completed_count. rewrite filter_app, length_app, Nat2Z.inj_add.
  f_equal. rewrite filter_cons, filter_nil.
  destruct (Corpus.success j); case_decide; try congruence; reflexivity.
Qed.

Lemma backend_count_snoc (b : string) (l : list Corpus.QuantumJobResult)
    (j : Corpus.QuantumJobResult) :
  Corpus.backend_count b (l ++ [j]) =
  (Corpus.backend_count b l + if decide (Corpus.backend j = b) then 1 else 0)%Z.
Proof.
  unfold Corpus.backend_count. rewrite filter_app, length_app, Nat2Z.inj_add.
  f_equal. rewrite filter_cons, filter_nil. case_decide; reflexivity.
Qed.

Lemma backend_count_nonneg (b : string) (l : list Corpus.QuantumJobResult) :
  (0 <= Corpus.backend_count b l)%Z.
Proof. unfold Corpus.backend_count. lia. Qed.

Lemma cost_sum_snoc (l : list Corpus.QuantumJobResult) (j : Corpus.QuantumJobResult) :
  Corpus.cost_sum (l ++ [j]) = (Corpus.cost_sum l + Corpus.cost j)%Z.
Proof.
  unfold Corpus.cost_sum. induction l as [|a l IH]; cbn; [lia|].
  cbn in IH. rewrite IH. lia.
Qed.

Lemma scanned_nil (jobs0 : list Corpus.QuantumJobResult) :
  Corpus.scanned jobs0 [] (Corpus.empty_stats, jobs0).
Proof.
  constructor; cbn; rewrite ?app_nil_r; reflexivity.
Qed.

(** The two dictionary statements of the loop body, on the counts. *)
Lemma backends_update (bs : gmap string Z) (l : list Corpus.QuantumJobResult)
    (j : Corpus.QuantumJobResult) (k : string) :
  k = Corpus.backend j ->
  (forall b, bs !! b = if decide (Corpus.backend_count b l = 0%Z) then None
                       else Some (Corpus.backend_count b l)) ->
  forall b,
    <[k := (default 0%Z
              (match bs !! k with None => <[k := 0%Z]> bs | Some _ => bs end !! k)
            + 1)%Z]>
      (match bs !! k with None => <[k := 0%Z]> bs | Some _ => bs end) !! b =
    if decide (Corpus.backend_count b (l ++ [j]) = 0%Z) then None
    else Some (Corpus.backend_count b (l ++ [j])).
Proof.
  intros -> Hb b. rewrite backend_count_snoc.
  pose proof (backend_count_nonneg b l) as Hnn.
  destruct (decide (Corpus.backend j = b)) as [Heq|Hne]; cbv iota.
  - subst b. rewrite lookup_insert_eq.
    destruct (decide ((Corpus.backend_count (Corpus.backend j) l + 1)%Z = 0%Z))
      as [Hbad|_]; [lia|]. f_equal.
    pose proof (Hb (Corpus.backend j)) as Hold.
    destruct (decide (Corpus.backend_count (Corpus.backend j) l = 0%Z)) as [Hz|Hz].
    + rewrite Hold, lookup_insert_eq. cbn [from_option id]. lia.
    + rewrite Hold. rewrite Hold. reflexivity.
  - rewrite lookup_insert_ne by exact Hne. rewrite Z.add_0_r.
    destruct (bs !! Corpus.backend j).
    + apply Hb.
    + rewrite lookup_insert_ne by exact Hne. apply Hb.
Qed.

(** Adding the jobs of one info file to the accumulator. *)
Lemma scanned_file (jobs0 l : list Corpus.QuantumJobResult)
    (acc : Corpus.Stats * list Corpus.QuantumJobResult) (f : Corpus.InfoFile) :
  Corpus.scanned jobs0 l acc ->
  Corpus.scanned jobs0 (l ++ Corpus.jobs_of_file f) (Corpus.scan_info_file acc f).
Proof.
  intros [Hj Ht Hc Hs Hb Hr Hp]. destruct acc as [stats jobs]. cbn [fst snd] in *.
  unfold Corpus.scan_info_file, Corpus.jobs_of_file.
  destruct (Corpus.load f) as [info|e].
  2:{ rewrite app_nil_r. constructor; assumption. }
  destruct (Corpus.result_exists f) eqn:Hres.
  - constructor; cbn [fst snd Corpus.total_jobs Corpus.completed_jobs
      Corpus.total_cost Corpus.backends Corpus.success_rate Corpus.jobs_sample].
    + rewrite Hj, <- app_assoc. reflexivity.
    + rewrite Ht, length_app. cbn [length]. lia.
    + rewrite completed_count_snoc, Hc. reflexivity.
    + rewrite cost_sum_snoc, Hs. reflexivity.
    + apply backends_update; [reflexivity | exact Hb].
    + exact Hr.
    + exact Hp.
  - constructor; cbn [fst snd Corpus.total_jobs Corpus.completed_jobs
      Corpus.total_cost Corpus.backends Corpus.success_rate Corpus.jobs_sample].
    + rewrite Hj, <- app_assoc. reflexivity.
    + rewrite Ht, length_app. cbn [length]. lia.
    + rewrite completed_count_snoc, Hc. cbn. lia.
    + rewrite cost_sum_snoc, Hs. reflexivity.
    + apply backends_update; [reflexivity | exact Hb].
    + exact Hr.
    + exact Hp.
Qed.

Lemma scanned_files (jobs0 : list Corpus.QuantumJobResult) (files : list Corpus.InfoFile) :
  forall l acc,
    Corpus.scanned jobs0 l acc ->
    Corpus.scanned jobs0 (l ++ (files ≫= Corpus.jobs_of_file))
      (foldl Corpus.scan_info_file acc files).
Proof.
  induction files as [|f files IH]; intros l acc Hacc.
  - cbn. rewrite app_nil_r. exact Hacc.
  - cbn [foldl]. rewrite bind_cons, app_assoc. apply IH, scanned_file, Hacc.
Qed.

Lemma scanned_entries (jobs0 : list Corpus.QuantumJobResult) (entries : list Corpus.DirEntry) :
  forall l acc,
    Corpus.scanned jobs0 l acc ->
    Corpus.scanned jobs0 (l ++ Corpus.jobs_of_entries entries)
      (foldl Corpus.scan_entry acc entries).
Proof.
  unfold Corpus.jobs_of_entries.
  induction entries as [|entry entries IH]; intros l acc Hacc.
  - cbn. rewrite app_nil_r. exact Hacc.
  - cbn [foldl]. rewrite bind_cons, app_assoc. apply IH.
    destruct entry as [|files]; cbn [Corpus.scan_entry Corpus.jobs_of_entry].
    + rewrite app_nil_r. exact Hacc.
    + apply scanned_files, Hacc.
Qed.

Lemma completed_count_le (l : list Corpus.QuantumJobResult) :
  (0 <= Corpus.completed_count l <= Z.of_nat (length l))%Z.
Proof.
  unfold Corpus.completed_count.
  pose proof (length_filter (fun j => Corpus.success j = true) l). lia.
Qed.

(** A scan of a directory, in full: it never raises, and its result is the
    accumulator of the loop with the rate and the sample filled in. *)
Lemma scan_workloads_directory (self : Corpus.QuantumCorpusAnalyzer)
    (entries : list Corpus.DirEntry) :
  Corpus.workloads_dir self = Corpus.Directory entries ->
  exists st : Corpus.Stats,
    Corpus.scanned (Corpus.jobs self) (Corpus.jobs_of_entries entries)
      (st, Corpus.jobs self ++ Corpus.jobs_of_entries entries) /\
    Corpus.scan_workloads self =
    Ok (Corpus.mkStats (Corpus.total_jobs st) (Corpus.completed_jobs st)
          (Corpus.total_cost st) (Corpus.backends st)
          (if (0 <? Corpus.total_jobs st)%Z
           then inject_Z (Corpus.completed_jobs st) / inject_Z (Corpus.total_jobs st)
           else 0.0)
          (take 50 (Corpus.jobs self ++ Corpus.jobs_of_entries entries)),
        Corpus.mkQuantumCorpusAnalyzer (Corpus.workloads_dir self)
          (Corpus.jobs self ++ Corpus.jobs_of_entries entries)).
Proof.
  intros Hdir. unfold Corpus.scan_workloads. rewrite Hdir.
  pose proof (scanned_entries (Corpus.jobs self) entries [] _
                (scanned_nil (Corpus.jobs self))) as Hsc.
  rewrite app_nil_l in Hsc.
  destruct (foldl Corpus.scan_entry (Corpus.empty_stats, Corpus.jobs self) entries)
    as [st jobs'] eqn:Hfold.
  pose proof (Corpus.sc_jobs _ _ _ Hsc) as Hj. cbn [snd] in Hj. subst jobs'.
  exists st. split; [exact Hsc|].
  pose proof (Corpus.sc_rate _ _ _ Hsc) as Hr. cbn [fst] in Hr.
  destruct (0 <? Corpus.total_jobs st)%Z eqn:Hpos.
  - rewrite py_div_ok; [reflexivity|].
    apply Z.ltb_lt in Hpos. unfold Qeq. cbn. lia.
  - rewrite Hr. reflexivity.
Qed.

(** X22. A scan of an existing workloads directory never raises and
    counts exactly the info files that could be opened and parsed: a file
    that raises is skipped without a trace.  [total_jobs] is the number of
    jobs built, [completed_jobs] the number of them whose result file
    exists (never more than [total_jobs]), [total_cost] the sum of their
    costs, and [backends] maps each backend to the number of its jobs and
    holds no backend without a job.  The built jobs are appended to the
    analyzer's list. *)
Theorem scan_workloads_counts (self : Corpus.QuantumCorpusAnalyzer)
    (entries : list Corpus.DirEntry) :
  Corpus.workloads_dir self = Corpus.Directory entries ->
  exists stats self',
    Corpus.scan_workloads self = Ok (stats, self') /\
    Corpus.jobs self' = Corpus.jobs self ++ Corpus.jobs_of_entries entries /\
    Corpus.workloads_dir self' = Corpus.workloads_dir self /\
    Corpus.total_jobs stats = Z.of_nat (length (Corpus.jobs_of_entries entries)) /\
    Corpus.completed_jobs stats = Corpus.completed_count (Corpus.jobs_of_entries entries) /\
    (0 <= Corpus.completed_jobs stats <= Corpus.total_jobs stats)%Z /\
    Corpus.total_cost stats = Corpus.cost_sum (Corpus.jobs_of_entries entries) /\
    forall b, Corpus.backends stats !! b =
      if decide (Corpus.backend_count b (Corpus.jobs_of_entries entries) = 0%Z)
      then None
      else Some (Corpus.backend_count b (Corpus.jobs_of_entries entries)).
Proof.
  intros Hdir. destruct (scan_workloads_directory self entries Hdir) as (st & Hsc & Hrun).
  destruct Hsc as [_ Ht Hc Hs Hb _ _]. cbn [fst] in *.
  eexists. eexists. split; [exact Hrun|].
  cbn [Corpus.jobs Corpus.workloads_dir Corpus.total_jobs Corpus.completed_jobs
       Corpus.total_cost Corpus.backends].
  split; [reflexivity|]. split; [reflexivity|]. split; [exact Ht|].
  split; [exact Hc|]. split; [rewrite Hc, Ht; apply completed_count_le|].
  split; [exact Hs | exact Hb].
Qed.

(** X23. The success rate of a scan is the completed share of the jobs
    built, a number between 0 and 1; with no job built it stays 0.0 and no
    division takes place. *)
Theorem scan_workloads_success_rate (self : Corpus.QuantumCorpusAnalyzer)
    (entries : list Corpus.DirEntry) :
  Corpus.workloads_dir self = Corpus.Directory entries ->
  exists stats self',
    Corpus.scan_workloads self = Ok (stats, self') /\
    0 <= Corpus.success_rate stats /\ Corpus.success_rate stats <= 1 /\
    Corpus.success_rate stats * inject_Z (Corpus.total_jobs stats) ==
      inject_Z (Corpus.completed_jobs stats) /\
    (Corpus.total_jobs stats = 0%Z -> Corpus.success_rate stats = 0.0).
Proof.
  intros Hdir. destruct (scan_workloads_directory self entries Hdir) as (st & Hsc & Hrun).
  destruct Hsc as [_ Ht Hc _ _ _ _]. cbn [fst] in *.
  pose proof (completed_count_le (Corpus.jobs_of_entries entries)) as Hle.
  rewrite <- Hc, <- Ht in Hle.
  eexists. eexists. split; [exact Hrun|].
  cbn [Corpus.success_rate Corpus.total_jobs Corpus.completed_jobs].
  destruct (0 <? Corpus.total_jobs st)%Z eqn:Hpos.
  - apply Z.ltb_lt in Hpos.
    assert (Hn : 0 < inject_Z (Corpus.total_jobs st)).
    { change 0 with (inject_Z 0). rewrite <- Zlt_Qlt. exact Hpos. }
    assert (Hc0 : 0 <= inject_Z (Corpus.completed_jobs st)).
    { change 0 with (inject_Z 0). rewrite <- Zle_Qle. lia. }
    assert (Hcn : inject_Z (Corpus.completed_jobs st) <= inject_Z (Corpus.total_jobs st)).
    { rewrite <- Zle_Qle. lia. }
    split; [apply Qle_shift_div_l; [exact Hn | lra]|].
    split; [apply Qle_shift_div_r; [exact Hn | lra]|].
    split; [field; lra | lia].
  - apply Z.ltb_ge in Hpos. assert (Hz : Corpus.total_jobs st = 0%Z) by lia.
    assert (Hcz : Corpus.completed_jobs st = 0%Z) by lia.
    rewrite Hz, Hcz. split; [discriminate|]. split; [discriminate|].
    split; reflexivity.
Qed.

(** X24. The sample of a scan, case by case on what the workloads path
    points at.  A directory: the sample is cut from the analyzer's whole
    job list, which is never reset; it is the first 50 of the old jobs
    followed by the new ones, so it has at most 50 entries, and once the
    analyzer holds 50 jobs the scan of any directory returns those same 50
    as its sample.  A path that does not exist: the scan returns the
    zeroed statistics with an empty sample, whatever the analyzer holds,
    and leaves the analyzer as it is.  A path that cannot be listed: the
    exception of the listing leaves the scan, and no statistics are
    returned. *)
Theorem scan_workloads_sample (self : Corpus.QuantumCorpusAnalyzer) :
  match Corpus.workloads_dir self with
  | Corpus.Directory entries =>
    exists stats self',
      Corpus.scan_workloads self = Ok (stats, self') /\
      Corpus.jobs_sample stats =
        take 50 (Corpus.jobs self ++ Corpus.jobs_of_entries entries) /\
      (length (Corpus.jobs_sample stats) <= 50)%nat /\
      ((50 <= length (Corpus.jobs self))%nat ->
         Corpus.jobs_sample stats = take 50 (Corpus.jobs self))
  | Corpus.Missing =>
    Corpus.scan_workloads self = Ok (Corpus.empty_stats, self) /\
    Corpus.jobs_sample Corpus.empty_stats = [] /\
    Corpus.total_jobs Corpus.empty_stats = 0%Z
  | Corpus.Unlistable e => Corpus.scan_workloads self = Raise e
  end.
Proof.
  destruct (Corpus.workloads_dir self) as [|e|entries] eqn:Hdir.
  - unfold Corpus.scan_workloads. rewrite Hdir. repeat split.
  - unfold Corpus.scan_workloads. rewrite Hdir. reflexivity.
  - destruct (scan_workloads_directory self entries Hdir) as (st & _ & Hrun).
    eexists. eexists. split; [exact Hrun|]. cbn [Corpus.jobs_sample].
    split; [reflexivity|]. split; [rewrite length_take; lia|].
    intros Hlen. apply take_app_le. exact Hlen.
Qed.

(** * The stored metric across the evolution loop *)

Section EcosystemMetric.
Context `{Runtime}.

(** After one iteration every organism mirrors itself in its convergence
    state and stores the metric of its own current values. *)
Lemma evolve_iteration_current (ld : OrganismLoader) (eng : CCCEEngine) :
  exists ld' eng' avg_xi,
    Platform.evolve_iteration ld eng = Ok (ld', eng', avg_xi) /\
    forall k o, ecosystem ld' !! k = Some o ->
      lambda_val (ccce o) = coherence o /\
      phi_val (ccce o) = consciousness_phi o /\
      gamma_val (ccce o) = entropy o /\
      xi_val (ccce o) = xi_of (coherence o) (consciousness_phi o) (entropy o).
Proof.
  destruct (evolve_iteration_post ld eng)
    as (ld' & eng' & avg & m & Hrun & _ & _ & Hout & Hin).
  exists ld', eng', avg. split; [exact Hrun|].
  intros k o Hk. destruct (ecosystem ld !! k) as [o0|] eqn:Hk0.
  - destruct (Hin k o0 Hk0) as (o1 & e1 & e2 & Hstep & Hk1).
    rewrite Hk1 in Hk. injection Hk as <-.
    pose proof (evolve_step_inv _ _ _ _ _ Hstep) as P.
    unfold enforce_result. record_simpl.
    rewrite (post_phi_val _ _ _ _ _ P), (post_gamma _ _ _ _ _ P).
    repeat split; reflexivity.
  - rewrite (Hout k Hk0) in Hk. discriminate.
Qed.

(** X26. After [evolve_ecosystem] has run at least one iteration, no
    organism of the registry carries a stale metric: the convergence state
    mirrors the organism's coherence, consciousness and entropy, and the
    stored [xi_val] is the metric of those values, so [is_stable] and the
    report read a current value. *)
Theorem evolve_ecosystem_metric_current (self : UnifiedPlatform) (iterations : Z) :
  (1 <= iterations)%Z ->
  exists self',
    Platform.evolve_ecosystem self iterations = Ok self' /\
    forall k o, ecosystem (loader self') !! k = Some o ->
      lambda_val (ccce o) = coherence o /\
      phi_val (ccce o) = consciousness_phi o /\
      gamma_val (ccce o) = entropy o /\
      xi_val (ccce o) = xi_of (coherence o) (consciousness_phi o) (entropy o).
Proof.
  intros Hit.
  set (current := fun o : OrganismState =>
         lambda_val (ccce o) = coherence o /\
         phi_val (ccce o) = consciousness_phi o /\
         gamma_val (ccce o) = entropy o /\
         xi_val (ccce o) = xi_of (coherence o) (consciousness_phi o) (entropy o)).
  assert (Hkeep : forall n pf,
            (forall k o, ecosystem (loader pf) !! k = Some o -> current o) ->
            exists pf', Platform.evolve_iterations n pf = Ok pf' /\
              forall k o, ecosystem (loader pf') !! k = Some o -> current o).
  { induction n as [|n IH]; intros pf Hcur.
    - exists pf. split; [reflexivity | exact Hcur].
    - destruct (evolve_iteration_current (loader pf) (engine pf))
        as (ld1 & eng1 & avg & Hrun & Hcur1).
      destruct (IH (mkUnifiedPlatform ld1 eng1 (organisms_loaded pf) avg (mode pf)) Hcur1)
        as (pf' & Hrest & Hcur').
      exists pf'. split; [|exact Hcur'].
      cbn [Platform.evolve_iterations]. rewrite Hrun. exact Hrest. }
  unfold Platform.evolve_ecosystem. cbv zeta.
  destruct (Z.to_nat iterations) as [|n] eqn:Hn; [lia|].
  set (self0 := Platform.log_notice self _).
  destruct (evolve_iteration_current (loader self0) (engine self0))
    as (ld1 & eng1 & avg & Hrun & Hcur1).
  destruct (Hkeep n (mkUnifiedPlatform ld1 eng1 (organisms_loaded self0) avg (mode self0))
              Hcur1)
    as (pf' & Hrest & Hcur').
  cbn [Platform.evolve_iterations]. rewrite Hrun, Hrest.
  eexists. split; [reflexivity|]. exact Hcur'.
Qed.

End EcosystemMetric.

(** * Worked instances of the further properties *)

Lemma evolve_ecosystem_metric_current_witness :
  exists self' o,
    @Platform.evolve_ecosystem example_runtime example_platform 3 = Ok self' /\
    ecosystem (loader self') !! "0011223344556677" = Some o /\
    xi_val (ccce o) = xi_of (coherence o) (consciousness_phi o) (entropy o).
Proof.
  destruct (@evolve_ecosystem_metric_current example_runtime example_platform 3)
    as (self' & Hrun & Hcur); [lia|].
  assert (Hk : exists o, ecosystem (loader self') !! "0011223344556677" = Some o).
  { assert (Hv : @Platform.evolve_ecosystem example_runtime example_platform 3 = Ok self')
      by exact Hrun.
    vm_compute in Hv. injection Hv as <-. eexists. vm_compute. reflexivity. }
  destruct Hk as (o & Hk). exists self', o. split; [exact Hrun|]. split; [exact Hk|].
  apply (Hcur _ _ Hk).
Defined.

Lemma load_organism_registers_witness :
  exists o self',
    @Loader.load_organism example_runtime example_loader "genesis.dna" = (Some o, self') /\
    organism_id o = "genesis" /\ genesis_hash o = "0011223344556677" /\
    ecosystem self' !! "0011223344556677" = Some o.
Proof.
  destruct (@load_organism_registers example_runtime example_loader "genesis.dna"
              "ORGANISM genesis") as (o & self' & Hrun & Ho & Hk & _);
    [reflexivity | reflexivity |].
  exists o, self'. split; [exact Hrun|]. subst o.
  split; [reflexivity|]. split; [reflexivity | exact Hk].
Defined.

Lemma load_organism_unreadable_witness :
  (@Loader.load_organism example_runtime_twins example_loader "locked.dna").1 = None /\
  ecosystem (@Loader.load_organism example_runtime_twins example_loader "locked.dna").2 = ∅ /\
  logger (@Loader.load_organism example_runtime_twins example_loader "locked.dna").2 =
    [("AIDEN", "Failed to load organism: [Errno 13] Permission denied: 'locked.dna'")].
Proof.
  rewrite (@load_organism_unreadable example_runtime_twins example_loader
             "locked.dna" (OSError "[Errno 13] Permission denied: 'locked.dna'"));
    [|reflexivity|reflexivity].
  repeat split.
Defined.

Lemma load_organism_same_content_witness :
  exists o1 o2 self1 self2,
    @Loader.load_organism example_runtime_twins example_loader "alpha.dna" = (Some o1, self1) /\
    @Loader.load_organism example_runtime_twins self1 "beta.dna" = (Some o2, self2) /\
    organism_id o2 = "beta" /\ size (ecosystem self2) = 1%nat.
Proof.
  destruct (@load_organism_same_content example_runtime_twins example_loader
              "alpha.dna" "beta.dna" "ORGANISM twin")
    as (o1 & o2 & self1 & self2 & H1 & H2 & _ & _ & Hid & _ & Heco & _);
    try reflexivity.
  exists o1, o2, self1, self2. split; [exact H1|]. split; [exact H2|].
  split; [exact Hid|]. rewrite Heco. cbn [ecosystem example_loader].
  rewrite map_size_insert_None by apply lookup_empty. reflexivity.
Defined.

Lemma scan_workloads_counts_witness :
  exists stats self',
    Corpus.scan_workloads example_analyzer = Ok (stats, self') /\
    Corpus.total_jobs stats = 2%Z /\ Corpus.completed_jobs stats = 1%Z /\
    Corpus.total_cost stats = 12%Z /\
    Corpus.backends stats !! "ibm_torino" = Some 1%Z /\
    Corpus.backends stats !! "unknown" = Some 1%Z /\
    Corpus.backends stats !! "ibm_kyiv" = None.
Proof.
  destruct (scan_workloads_counts example_analyzer _ eq_refl)
    as (stats & self' & Hrun & _ & _ & Ht & Hc & _ & Hs & Hb).
  exists stats, self'. split; [exact Hrun|].
  split; [exact Ht|]. split; [exact Hc|]. split; [exact Hs|].
  split; [apply (Hb "ibm_torino")|]. split; [apply (Hb "unknown") | apply (Hb "ibm_kyiv")].
Defined.

Lemma scan_workloads_success_rate_witness :
  exists stats self',
    Corpus.scan_workloads example_analyzer = Ok (stats, self') /\
    Corpus.success_rate stats == 0.5.
Proof.
  destruct (scan_workloads_success_rate example_analyzer _ eq_refl)
    as (stats & self' & Hrun & _ & _ & Hr & _).
  exists stats, self'. split; [exact Hrun|].
  assert (Hv : Corpus.scan_workloads example_analyzer = Ok (stats, self')) by exact Hrun.
  vm_compute in Hv. injection Hv as <- _. vm_compute. reflexivity.
Defined.

Lemma scan_workloads_sample_witness :
  exists stats self',
    Corpus.scan_workloads example_analyzer = Ok (stats, self') /\
    length (Corpus.jobs_sample stats) = 2%nat /\
    (length (Corpus.jobs_sample stats) <= 50)%nat.
Proof.
  destruct (scan_workloads_sample example_analyzer)
    as (stats & self' & Hrun & Hs & Hle & _).
  exists stats, self'. split; [exact Hrun|]. split; [rewrite Hs; reflexivity | exact Hle].
Defined.

(** * Further properties: identity, phase and the correction counter *)

Lemma substring_0_length (n : nat) (s : string) :
  String.length (String.substring 0 n s) = Nat.min n (String.length s).
Proof.
  revert s. induction n as [|n IH]; intros s.
  - destruct s; reflexivity.
  - destruct s as [|c s]; [reflexivity|]. cbn. rewrite IH. reflexivity.
Qed.

Lemma substring_0_prefix (n : nat) (s : string) :
  exists rest, s = String.substring 0 n s +:+ rest.
Proof.
  revert s. induction n as [|n IH]; intros s.
  - exists s. destruct s; reflexivity.
  - destruct s as [|c s]; [exists ""; reflexivity|].
    destruct (IH s) as (rest & Hrest). exists rest.
    change (String c s = String c (String.substring 0 n s +:+ rest)).
    f_equal. exact Hrest.
Qed.

(** X27. The genesis hash is the leading part of the digest, never longer
    than 16 characters, and exactly 16 characters long whenever the digest
    has at least 16, as a SHA-256 hex digest does. *)
Theorem generate_genesis_hash_length `{Runtime} (content : string) :
  (16 <= String.length (sha256_hexdigest content))%nat ->
  String.length (Loader.generate_genesis_hash content) = 16%nat /\
  exists rest,
    sha256_hexdigest content = Loader.generate_genesis_hash content +:+ rest.
Proof.
  intros Hlen. unfold Loader.generate_genesis_hash. split.
  - rewrite substring_0_length. lia.
  - apply substring_0_prefix.
Qed.

Lemma generate_genesis_hash_length_witness :
  String.length (@Loader.generate_genesis_hash example_runtime "ORGANISM genesis") = 16%nat.
Proof.
  apply (@generate_genesis_hash_length example_runtime "ORGANISM genesis").
  vm_compute. lia.
Defined.

(** X28. With a sine that stays within -1 and 1, the phase coordinate an
    evolution step writes stays within [-PHI_THRESHOLD, PHI_THRESHOLD],
    whatever the organism and the time step. *)
Theorem evolve_step_phase_bounded `{Runtime} (self : CCCEEngine)
    (o : OrganismState) (dt : Q) :
  (forall a, -1 <= math_sin a /\ math_sin a <= 1) ->
  exists o' self',
    Engine.evolve_step self o dt = Ok (o', self') /\
    - PHI_THRESHOLD <= phi (crsm o') /\ phi (crsm o') <= PHI_THRESHOLD.
Proof.
  intros Hsin.
  destruct (evolve_step_post self o dt) as (o' & self' & Hrun & P).
  exists o', self'. split; [exact Hrun|].
  rewrite (post_crsm_phi _ _ _ _ _ P).
  destruct (Hsin ((t (crsm o) + dt) * LAMBDA_PHI * 1000000)) as [Hlo Hhi].
  unfold PHI_THRESHOLD. split; lra.
Qed.

Lemma evolve_step_phase_bounded_witness :
  exists o' self',
    @Engine.evolve_step example_runtime CCCEEngine_init example_organism 0.1
      = Ok (o', self') /\
    - PHI_THRESHOLD <= phi (crsm o') /\ phi (crsm o') <= PHI_THRESHOLD.
Proof.
  apply (@evolve_step_phase_bounded example_runtime).
  intros a. split; discriminate.
Defined.

Section Counter.
Context `{Runtime}.

(** X29. One pass of the evolution loop over the registry raises the
    correction counter by exactly the number of organisms whose entropy
    is above the 0.1 gate, and leaves the engine's own state alone. *)
Theorem evolve_all_counts_corrections (eng : CCCEEngine)
    (eco : gmap string OrganismState) :
  exists eco' eng',
    Platform.evolve_all eng eco = Ok (eco', eng') /\
    corrections eng' =
      (corrections eng +
       Z.of_nat (size (filter (fun kv => Qlt_bool 0.1 (entropy kv.2) = true) eco)))%Z /\
    state eng' = state eng.
Proof.
  unfold Platform.evolve_all. generalize eco at 1. intros m0.
  apply (map_fold_weak_ind
    (fun r (m : gmap string OrganismState) =>
       exists eco' eng',
         r = Ok (eco', eng') /\
         corrections eng' =
           (corrections eng +
            Z.of_nat (size (filter (fun kv => Qlt_bool 0.1 (entropy kv.2) = true) m)))%Z /\
         state eng' = state eng)).
  - exists m0, eng. split; [reflexivity|]. rewrite map_filter_empty, map_size_empty.
    split; [lia | reflexivity].
  - intros i o m r Hi (eco1 & eng1 & -> & Hc & Hs).
    destruct (evolve_step_post eng1 o 0.1) as (o' & eng2 & Hrun & P).
    exists (<[i:=o']> eco1), eng2. rewrite Hrun. split; [reflexivity|].
    rewrite (post_corrections _ _ _ _ _ P), (post_state _ _ _ _ _ P).
    split; [|exact Hs].
    destruct (Qlt_bool 0.1 (entropy o)) eqn:Hgate.
    + rewrite map_filter_insert_True by exact Hgate.
      rewrite map_size_insert_None by (apply map_lookup_filter_None_2; left; exact Hi).
      lia.
    + rewrite map_filter_insert_False by (cbn; rewrite Hgate; discriminate).
      rewrite (delete_id _ _ Hi). lia.
Qed.

End Counter.

(** * Binary64: the operations as the program runs them *)

(** Reduction of the binary64 records only; the arithmetic is left as
    written. *)
Ltac f64_simpl :=
  cbn [fst snd
       F64.set_generation F64.set_crsm F64.set_ccce F64.set_coherence F64.set_entropy
       F64.set_consciousness_phi F64.set_qbytes F64.set_t F64.set_phi F64.set_sigma
       F64.set_lambda_val F64.set_phi_val F64.set_gamma_val F64.set_xi_val
       F64.set_theta_val F64.set_corrections
       F64.organism_id F64.genesis_hash F64.generation F64.crsm F64.ccce F64.coherence
       F64.entropy F64.consciousness_phi F64.qbytes F64.status
       F64.x F64.y F64.z F64.t F64.phi F64.sigma
       F64.lambda_val F64.phi_val F64.gamma_val F64.xi_val F64.theta_val
       F64.state F64.corrections].

(** Both zeros are below the division floor, so no division by zero is
    reached behind a floor test. *)
Lemma F64_zero_below_floor (s : bool) : F64.ltb (S754_zero s) F64.floor = true.
Proof. destruct s; vm_compute; reflexivity. Qed.

Lemma F64_div_above_floor (a b : spec_float) :
  F64.ltb b F64.floor = false ->
  F64.div a b = Ok (SFdiv F64.prec F64.emax a b).
Proof.
  intros Hb. unfold F64.div. destruct b as [s|s| |s m e]; try reflexivity.
  rewrite F64_zero_below_floor in Hb. discriminate.
Qed.

Lemma F64_compute_xi_ok (self : F64.CCCEState) :
  F64.compute_xi self =
  Ok (F64.xi_of (F64.lambda_val self) (F64.phi_val self) (F64.gamma_val self),
      F64.set_xi_val self
        (F64.xi_of (F64.lambda_val self) (F64.phi_val self) (F64.gamma_val self))).
Proof.
  unfold F64.compute_xi, F64.xi_of.
  destruct (F64.ltb (F64.gamma_val self) F64.floor) eqn:E; [reflexivity|].
  rewrite (F64_div_above_floor _ _ E). reflexivity.
Qed.

Lemma F64_phase_conjugate_correction_total (self : F64.CCCEEngine) (error : spec_float) :
  exists v self', F64.phase_conjugate_correction self error = Ok (v, self').
Proof.
  unfold F64.phase_conjugate_correction.
  destruct (F64.ltb (F64.abs error) F64.floor) eqn:E; [eexists; eexists; reflexivity|].
  destruct (negb (F64.eqb error (F64.of_int 0))); [|eexists; eexists; reflexivity].
  assert (Hz : F64.is_zero error = false).
  { destruct error as [s|s| |s m e]; try reflexivity.
    change (F64.abs (S754_zero s)) with (S754_zero false) in E.
    rewrite F64_zero_below_floor in E. discriminate. }
  unfold F64.div. rewrite Hz. eexists; eexists; reflexivity.
Qed.

(** The step once the sine has answered [s]. *)
Lemma F64_evolve_step_after_sine `{F64.Libm} (self : F64.CCCEEngine)
    (o : F64.OrganismState) (dt : spec_float) (s : spec_float) :
  F64.math_sin (F64.sine_argument o dt) = Ok s ->
  exists o' self', F64.evolve_step self o dt = Ok (o', self') /\ F64.step_post o o'.
Proof.
  intros Hs. unfold F64.evolve_step, F64.step_post. f64_simpl.
  unfold F64.sine_argument in Hs. rewrite Hs. f64_simpl.
  destruct (F64.ltb (F64.literal 1 10) (F64.entropy o)) eqn:He.
  - destruct (F64_phase_conjugate_correction_total self (F64.entropy o))
      as (v & self1 & Hv).
    rewrite Hv. f64_simpl. rewrite F64_compute_xi_ok. f64_simpl.
    destruct (F64.ltb (F64.literal 9 10) (F64.coherence o));
      eexists; eexists; (split; [reflexivity|]); f64_simpl; repeat split.
  - f64_simpl. rewrite F64_compute_xi_ok. f64_simpl.
    destruct (F64.ltb (F64.literal 9 10) (F64.coherence o));
      eexists; eexists; (split; [reflexivity|]); f64_simpl; repeat split.
Qed.

(** In binary64 a step raises in one case only: the time coordinate has
    overflowed, and [math.sin] refuses the infinity it is handed. *)
Lemma F64_evolve_step_post `{F64.Libm} (self : F64.CCCEEngine) (o : F64.OrganismState)
    (dt : spec_float) :
  match F64.sine_argument o dt with
  | S754_infinity _ =>
    F64.evolve_step self o dt = Raise (ValueError "math domain error")
  | _ => exists o' self', F64.evolve_step self o dt = Ok (o', self') /\ F64.step_post o o'
  end.
Proof.
  destruct (F64.sine_argument o dt) as [s|s| |s m e] eqn:Harg;
    try (apply (F64_evolve_step_after_sine self o dt (F64.libm_sin (F64.sine_argument o dt)));
         rewrite Harg; reflexivity).
  unfold F64.evolve_step. f64_simpl. unfold F64.sine_argument in Harg.
  rewrite Harg. reflexivity.
Qed.






(** ** C3: the population normalizer *)



(** ** C4: the yield gate *)



(** ** C6: the lock angle *)

(** In binary64 the distance to the target is not multiplied by exactly
    0.9.  From a lock angle of 52 one step leaves a double whose distance
    to 51.843 (and likewise to the double the program holds for 51.843)
    is not 0.9 times the old distance; and the double next above the
    target is not moved by a step at all, so its distance is kept, not
    reduced. *)
Lemma evolve_step_angle_not_exact_binary64 :
  (exists o' self',
     @F64.evolve_step F64.example_libm F64.CCCEEngine_init
       (F64.set_ccce F64.example_organism
          (F64.set_theta_val F64.CCCEState_default (F64.of_int 52)))
       (F64.literal 1 10) = Ok (o', self') /\
     F64.value (F64.of_int 52) == 52 /\
     ~ Qabs (F64.value (F64.theta_val (F64.ccce o')) - 51.843) ==
       0.9 * Qabs (52 - 51.843) /\
     ~ Qabs (F64.value (F64.theta_val (F64.ccce o')) - F64.value F64.THETA_LOCK) ==
       0.9 * Qabs (52 - F64.value F64.THETA_LOCK)) /\
  (exists o' self',
     @F64.evolve_step F64.example_libm F64.CCCEEngine_init
       (F64.set_ccce F64.example_organism
          (F64.set_theta_val F64.CCCEState_default
             (SFsucc F64.prec F64.emax F64.THETA_LOCK)))
       (F64.literal 1 10) = Ok (o', self') /\
     F64.ltb F64.THETA_LOCK (SFsucc F64.prec F64.emax F64.THETA_LOCK) = true /\
     F64.theta_val (F64.ccce o') = SFsucc F64.prec F64.emax F64.THETA_LOCK).
Proof.
  split.
  - eexists. eexists. split; [vm_compute; reflexivity|].
    split; [vm_compute; reflexivity|].
    split; vm_compute; discriminate.
  - eexists. eexists. split; [vm_compute; reflexivity|].
    split; vm_compute; reflexivity.
Qed.

(** C6 (as amended).  In binary64, for every entity, one evolution step
    returns (unless its time coordinate has overflowed, when the sine
    raises) and sets the lock angle to the rounded
    [theta - (theta - THETA_LOCK) * 0.1]; the target itself is a fixed
    point, and from 61.843 the step gives the double 60.843.  Read in
    exact arithmetic, the new angle is
    [theta - 0.1 * (theta - THETA_LOCK)] and its distance to 51.843 is
    exactly 0.9 times the distance before the step. *)
Theorem evolve_step_angle_binary64 :
  (forall (lm : F64.Libm) (self : F64.CCCEEngine) (o : F64.OrganismState)
          (dt : spec_float),
     match F64.sine_argument o dt with
     | S754_infinity _ =>
       @F64.evolve_step lm self o dt = Raise (ValueError "math domain error")
     | _ =>
       exists o' self',
         @F64.evolve_step lm self o dt = Ok (o', self') /\
         F64.theta_val (F64.ccce o') =
           F64.sub (F64.theta_val (F64.ccce o))
             (F64.mul (F64.sub (F64.theta_val (F64.ccce o)) F64.THETA_LOCK)
                (F64.literal 1 10))
     end) /\
  F64.sub F64.THETA_LOCK
    (F64.mul (F64.sub F64.THETA_LOCK F64.THETA_LOCK) (F64.literal 1 10)) =
    F64.THETA_LOCK /\
  F64.sub (F64.literal 61843 1000)
    (F64.mul (F64.sub (F64.literal 61843 1000) F64.THETA_LOCK) (F64.literal 1 10)) =
    F64.literal 60843 1000 /\
  (forall (rt : Runtime) (self : CCCEEngine) (o : OrganismState) (dt : Q),
     exists o' self',
       @Engine.evolve_step rt self o dt = Ok (o', self') /\
       theta_val (ccce o') ==
         theta_val (ccce o) - 0.1 * (theta_val (ccce o) - THETA_LOCK) /\
       Qabs (theta_val (ccce o') - 51.843) == 0.9 * Qabs (theta_val (ccce o) - 51.843)).
Proof.
  split; [|split; [vm_compute; reflexivity|split; [vm_compute; reflexivity|]]].
  - intros lm self o dt. pose proof (@F64_evolve_step_post lm self o dt) as Hp.
    destruct (F64.sine_argument o dt); try exact Hp;
      destruct Hp as (o' & self' & Hrun & Ht & _);
      exists o', self'; split; assumption.
  - intros rt. apply (@evolve_step_angle_relaxation rt).
Qed.

(** The one way a step raises: a time coordinate that overflows hands an
    infinity to [math.sin]. *)
Example evolve_step_sine_of_infinity :
  F64.sine_argument
    (F64.set_crsm F64.example_organism
       (F64.set_t F64.CRSM6D_default (F64.of_int (2 ^ 1023))))
    (F64.of_int (2 ^ 1023)) = F64.inf /\
  @F64.evolve_step F64.example_libm F64.CCCEEngine_init
    (F64.set_crsm F64.example_organism
       (F64.set_t F64.CRSM6D_default (F64.of_int (2 ^ 1023))))
    (F64.of_int (2 ^ 1023)) = Raise (ValueError "math domain error").
Proof. split; vm_compute; reflexivity. Qed.

(** ** Admission at the threshold in binary64 *)

(** [symmetrize] can reach the threshold: from the double next below 0.97
    the rounded half-sum is 0.97 itself, and the symmetrized organism
    passes [check_lambda_symmetry]. *)
Example symmetrize_reaches_threshold_binary64 :
  exists o',
    F64.symmetrize
      (F64.set_coherence F64.example_organism
         (SFpred F64.prec F64.emax F64.COHERENCE_MIN)) = Ok o' /\
    F64.check_lambda_symmetry
      (F64.set_coherence F64.example_organism
         (SFpred F64.prec F64.emax F64.COHERENCE_MIN)) = false /\
    F64.coherence o' = F64.COHERENCE_MIN /\
    F64.check_lambda_symmetry o' = true.
Proof.
  eexists. split; [vm_compute; reflexivity|]. repeat split; vm_compute; reflexivity.
Qed.
